(** * url-shortener: a shallow embedding of the Hono application

    The repository holds two versions of the application:
    - [src/index.tsx], the final one: [createKey] with its collision retry,
      and [POST /create] behind [csrf()] and the form validator
      (module [VariantA] below);
    - an earlier one, in which [POST /create] first looks the submitted URL
      up in the store and has no CSRF middleware (module [VariantB]).

    The Cloudflare KV namespace is a finite map from strings to strings.
    Handlers are functions in a small state monad over a [World]: the
    contents of the store, the number of UUIDs drawn so far and the log of
    store operations issued.  [createKey] is recursive without a bound, so
    the monad also carries the possibility of running out of fuel. *)

From Stdlib Require Import ZArith String Ascii List Lia Bool.
From stdpp Require Import gmap strings.

Local Open Scope Z_scope.

(** ** JavaScript strings and values *)

(** [String.prototype.substring(indexStart, indexEnd)]: the two indices are
    swapped when out of order and the result stops at the end of the
    string. *)
Definition substring (indexStart indexEnd : nat) (s : string) : string :=
  let lo := Nat.min indexStart indexEnd in
  let hi := Nat.max indexStart indexEnd in
  String.substring lo (hi - lo) s.

(** [!v] for a value of type [string | null]: [null] and the empty string
    are the falsy ones. *)
Definition js_not (v : option string) : bool :=
  match v with
  | None => true
  | Some EmptyString => true
  | Some (String _ _) => false
  end.

(** ** [crypto.randomUUID()] *)

Definition hexChars : string := "0123456789abcdef".

Definition hexDigit (d : Z) : ascii :=
  match String.get (Z.to_nat d) hexChars with
  | Some c => c
  | None => "0"%char
  end.

(** The [i]-th hexadecimal digit, counted from the left, of a 128-bit
    value. *)
Definition nibble (v : Z) (i : nat) : Z :=
  Z.land (Z.shiftr v (4 * Z.of_nat (31 - i))) 15.

Fixpoint hexRange (v : Z) (i len : nat) : string :=
  match len with
  | O => EmptyString
  | S len' => String (hexDigit (nibble v i)) (hexRange v (S i) len')
  end.

(** Modelled from the spec: [crypto.randomUUID] is a function of the
    platform, not of the repository.  It draws a random 128-bit value,
    stamps the version (4) and variant (10) bits of a version 4 UUID on
    it, and prints it as 32 lower-case hexadecimal digits grouped
    8-4-4-4-12. *)
Definition uuidBits (n : Z) : Z :=
  Z.lor (Z.ldiff (n mod 2 ^ 128) (Z.shiftl 15 76 + Z.shiftl 12 60))
        (Z.shiftl 4 76 + Z.shiftl 8 60).

Definition uuidString (n : Z) : string :=
  let v := uuidBits n in
  (hexRange v 0 8 +:+ "-" +:+ hexRange v 8 4 +:+ "-" +:+ hexRange v 12 4
   +:+ "-" +:+ hexRange v 16 4 +:+ "-" +:+ hexRange v 20 12)%string.

(** ** The route pattern [[0-9a-z]{6}] *)

Definition isDigit (c : ascii) : bool :=
  let n := nat_of_ascii c in (48 <=? n)%nat && (n <=? 57)%nat.

Definition isLower (c : ascii) : bool :=
  let n := nat_of_ascii c in (97 <=? n)%nat && (n <=? 122)%nat.

Definition isHex (c : ascii) : bool :=
  let n := nat_of_ascii c in
  isDigit c || ((97 <=? n)%nat && (n <=? 102)%nat).

Fixpoint allChars (p : ascii -> bool) (s : string) : bool :=
  match s with
  | EmptyString => true
  | String c s' => p c && allChars p s'
  end.

(** The parameter pattern of [app.get('/:key{[0-9a-z]{6}}', ...)]: the whole
    path segment is six characters, each a digit or a lower-case letter. *)
Definition matchKey (seg : string) : bool :=
  (String.length seg =? 6)%nat && allChars (fun c => isDigit c || isLower c) seg.

(** ** The store and the world *)

Inductive KvOp : Type :=
| KvGet (key : string)
| KvPut (key value : string).

Record World : Type := mkWorld {
  kv : gmap string string;   (* contents of the KV namespace *)
  drawn : nat;               (* how many UUIDs were drawn so far *)
  ops : list KvOp            (* store operations issued, oldest first *)
}.

(** A computation either returns a value and a new world, or has not
    returned within its fuel ([None]). *)
Definition M (A : Type) : Type := World -> option (A * World).

Definition ret {A} (a : A) : M A := fun w => Some (a, w).

Definition bind {A B} (m : M A) (k : A -> M B) : M B :=
  fun w => match m w with
           | Some (a, w') => k a w'
           | None => None
           end.

Definition diverge {A} : M A := fun _ => None.

Notation "'let*' x ':=' m 'in' k" := (bind m (fun x => k))
  (at level 10, x name, m at level 100, k at level 200).
Notation "'do*' m 'in' k" := (bind m (fun _ => k))
  (at level 10, m at level 100, k at level 200).

(** [kv.get(key)] and [kv.put(key, value)] of a [KVNamespace]. *)
Definition kv_get (key : string) : M (option string) :=
  fun w => Some (kv w !! key,
                 mkWorld (kv w) (drawn w) (ops w ++ [KvGet key])).

Definition kv_put (key value : string) : M unit :=
  fun w => Some (tt,
                 mkWorld (<[key := value]> (kv w)) (drawn w)
                         (ops w ++ [KvPut key value])).

(** The randomness of one execution: the [i]-th 128-bit value drawn. *)
Definition Entropy : Type := nat -> Z.

Definition randomUUID (e : Entropy) : M string :=
  fun w => Some (uuidString (e (drawn w)),
                 mkWorld (kv w) (S (drawn w)) (ops w)).

(** ** Requests, responses and middleware *)

(** The request methods of HTTP. *)
Inductive Method : Type :=
| GET | HEAD | POST | PUT | DELETE | CONNECT | OPTIONS | TRACE | PATCH.

Record Request : Type := mkRequest {
  method : Method;
  path : string;                  (* c.req.path *)
  reqUrl : string;                (* c.req.url *)
  headers : gmap string string;   (* header names in lower case *)
  form : gmap string string       (* the parsed form body *)
}.

Inductive Page : Type :=
| TopPage                          (* the creation form *)
| ErrorPage                        (* "Error!" and the link back to the top *)
| CreatedPage (shortenUrl : string).

Inductive Response : Type :=
| Redirect (location : string) (status : Z)
| Html (page : Page) (status : Z)   (* c.render(...) *)
| BadRequest                        (* zValidator's own answer, without a hook *)
| Forbidden                         (* the HTTPException thrown by csrf() *)
| NotFound
| NoBody (full : Response).         (* status and headers of [full], no body *)

(** [c.redirect(location)]: the status defaults to 302. *)
Definition redirect (location : string) : Response := Redirect location 302.

(** [c.render(page)]: the page in the layout of the renderer, status 200. *)
Definition render (page : Page) : Response := Html page 200.

Definition Handler : Type := Request -> M Response.
Definition Middleware : Type := Handler -> Handler.

(** What the application takes from the platform and from its libraries. *)
Record Platform : Type := mkPlatform {
  entropy : Entropy;
  (* z.string().url(): does the string parse as an absolute URL *)
  zodUrl : string -> bool;
  (* hono/csrf: does the request pass the origin check *)
  csrfAllows : Request -> bool;
  (* new URL(relative, base).toString() *)
  resolveUrl : string -> string -> string
}.

(** [app.all('*', renderer)]: sets the layout used by [c.render] and goes
    on to the next handler. *)
Definition renderer : Middleware := fun next c => next c.

(** [csrf()]: a request that fails the check is answered at once, [next]
    is not called. *)
Definition csrf (P : Platform) : Middleware :=
  fun next c => if csrfAllows P c then next c else ret Forbidden.

(** The segment of a path matched by ['/:key{[0-9a-z]{6}}']. *)
Definition keyParam (p : string) : option string :=
  match p with
  | String "/" seg => if matchKey seg then Some seg else None
  | _ => None
  end.

(** [const schema = z.object({ url: z.string().url() })], as [safeParse] on
    the form: the validated [url], or no success. *)
Definition schema (P : Platform) (f : gmap string string) : option string :=
  match f !! "url"%string with
  | Some u => if zodUrl P u then Some u else None
  | None => None
  end.

(** [zValidator('form', schema, hook)]: the hook sees the result first and
    its response, if it returns one, ends the request; without one a failed
    validation is answered with status 400; on success the handler runs
    with the validated data ([c.req.valid('form')]). *)
Definition zValidator (P : Platform)
    (hook : option string -> Request -> option Response)
    (next : string -> Handler) : Handler :=
  fun c =>
    let result := schema P (form c) in
    match hook result c with
    | Some response => ret response
    | None =>
        match result with
        | None => ret BadRequest
        | Some data => next data c
        end
    end.

Definition validator (P : Platform) : (string -> Handler) -> Handler :=
  zValidator P (fun result c =>
    match result with
    | None => Some (render ErrorPage)      (* if (!result.success) *)
    | Some _ => None
    end).

(** [app.get('/:key{[0-9a-z]{6}}', ...)], the same in both versions. *)
Definition getKey (key : string) : Handler :=
  fun c =>
    let* url := kv_get key in
    match url with
    | None => ret (redirect "/")           (* url === null *)
    | Some url => ret (redirect url)
    end.

(** [app.get('/', ...)]. *)
Definition getTop : Handler := fun c => ret (render TopPage).

(** The page shown after a creation. *)
Definition created (P : Platform) (key : string) : Handler :=
  fun c =>
    let shortenUrl := resolveUrl P ("/" +:+ key) (reqUrl c) in
    ret (render (CreatedPage shortenUrl)).

(** The routes in the order of their registration, for a request
    dispatched as method [m]; a request that no route matches gets the
    default answer. *)
Definition routes (postCreate : Handler) (m : Method) : Handler :=
  renderer (fun c =>
    match m with
    | GET =>
        match keyParam (path c) with
        | Some key => getKey key c
        | None => if String.eqb (path c) "/" then getTop c else ret NotFound
        end
    | POST =>
        if String.eqb (path c) "/create" then postCreate c else ret NotFound
    | _ => ret NotFound
    end).

(** Hono's dispatch: a [HEAD] request is served through the [GET] routes
    and answered with the status and headers of their response, without
    its body; any other request goes to the routes of its own method. *)
Definition router (postCreate : Handler) : Handler :=
  fun c =>
    match method c with
    | HEAD =>
        let* response := routes postCreate GET c in
        ret (NoBody response)
    | m => routes postCreate m c
    end.

(** ** [src/index.tsx] *)

Module VariantA.

(** [createKey(kv, url)].  The recursive call is awaited and its result
    dropped: the function returns the [key] of its own draw. *)
Fixpoint createKey (P : Platform) (fuel : nat) (url : string) : M string :=
  match fuel with
  | O => diverge
  | S fuel' =>
      let* uuid := randomUUID (entropy P) in
      let key := substring 0 6 uuid in
      let* result := kv_get key in
      if js_not result then
        do* kv_put key url in
        ret key
      else
        do* createKey P fuel' url in
        ret key
  end.

Definition postCreate (P : Platform) (fuel : nat) : Handler :=
  csrf P (validator P (fun url c =>
    let* key := createKey P fuel url in
    created P key c)).

Definition app (P : Platform) (fuel : nat) : Handler :=
  router (postCreate P fuel).

End VariantA.

(** ** The tutorial's [createKey]

    The README walks through the same function, with [return await
    createKey(kv, url)] in the branch taken on a collision. *)

Module Tutorial.

Fixpoint createKey (P : Platform) (fuel : nat) (url : string) : M string :=
  match fuel with
  | O => diverge
  | S fuel' =>
      let* uuid := randomUUID (entropy P) in
      let key := substring 0 6 uuid in
      let* result := kv_get key in
      if js_not result then
        do* kv_put key url in
        ret key
      else
        createKey P fuel' url
  end.

End Tutorial.

(** ** The earlier version: lookup by target, no CSRF middleware *)

Module VariantB.

Definition postCreate (P : Platform) : Handler :=
  validator P (fun url c =>
    let* uuid := randomUUID (entropy P) in
    let* found := kv_get url in
    let fresh :=
      let key := substring 0 6 uuid in
      do* kv_put key url in
      ret key in
    let* key :=
      match found with
      | Some key => if js_not (Some key) then fresh else ret key
      | None => fresh                      (* !null *)
      end in
    created P key c).

Definition app (P : Platform) : Handler := router (postCreate P).

End VariantB.

(** ** A platform for the examples *)

(** Draws taken from a list, then a fixed value for ever. *)
Definition draws (l : list Z) (rest : Z) : Entropy :=
  fun i => nth i l rest.

(** A 128-bit value whose first six hexadecimal digits are those of [k]. *)
Definition startingWith (k : Z) : Z := Z.shiftl k 104.

Definition hasPrefix (p s : string) : bool := String.prefix p s.

(** A stand-in for the libraries: a URL is a string starting with
    [http://] or [https://], and a request passes the CSRF check when its
    [Origin] header is the site's origin. *)
Definition siteOrigin : string := "https://sho.rt".

Definition examplePlatform (e : Entropy) : Platform :=
  mkPlatform e
    (fun u => hasPrefix "http://" u || hasPrefix "https://" u)
    (fun r => match headers r !! "origin"%string with
              | Some o => String.eqb o siteOrigin
              | None => false
              end)
    (fun rel base => (siteOrigin +:+ rel)%string).

Definition emptyWorld : World := mkWorld ∅ 0 [].

Definition formPost (origin u : string) : Request :=
  mkRequest POST "/create" "https://sho.rt/create"
            {[ "origin"%string := origin ]} {[ "url"%string := u ]}.

Definition getPath (p : string) : Request :=
  mkRequest GET p ("https://sho.rt" +:+ p) ∅ ∅.

(** The key a store operation is about. *)
Definition opKey (o : KvOp) : string :=
  match o with
  | KvGet key => key
  | KvPut key _ => key
  end.

(** Six characters, all of them hexadecimal digits, matching the pattern
    of the redirect route. *)
Definition sixHexDigits (key : string) : Prop :=
  String.length key = 6%nat /\ allChars isHex key = true /\
  matchKey key = true.

(** The key made from the [i]-th draw: [uuid.substring(0, 6)]. *)
Definition candidate (P : Platform) (i : nat) : string :=
  substring 0 6 (uuidString (entropy P i)).

(** The store operations of a run of [createKey] that starts at draw [d]
    and succeeds at its [n]-th retry: one [get] per draw, then the [put]. *)
Definition createKeyOps (P : Platform) (url : string) (d n : nat) : list KvOp :=
  map (fun j => KvGet (candidate P (d + j))) (seq 0 (S n))
  ++ [KvPut (candidate P (d + n)) url].


(** No stored value is the empty string. *)
Definition valuesNonEmpty (w : World) : Prop :=
  forall key v : string, kv w !! key = Some v -> v <> EmptyString.

(** ** Worlds and draws for the examples *)

Definition target : string := "https://example.com/page".
Definition oldTarget : string := "https://old.example/".

(** The first draw gives [abcdef], the second [123456]. *)
Definition twoDraws : Platform :=
  examplePlatform (draws [startingWith 0xabcdef; startingWith 0x123456] 0).

(** [abcdef] is taken. *)
Definition takenWorld : World :=
  mkWorld {[ "abcdef"%string := oldTarget ]} 0 [].

(** [abcdef] is in the store with the empty string as its value. *)
Definition emptyValueWorld : World :=
  mkWorld {[ "abcdef"%string := EmptyString ]} 0 [].

(** [n] draws of [abcdef], then [123456] for ever. *)
Definition lateDraw (n : nat) : Platform :=
  examplePlatform (fun i => if (i <? n)%nat then startingWith 0xabcdef
                            else startingWith 0x123456).

(** Every draw gives [abcdef]. *)
Definition sameDraw : Platform :=
  examplePlatform (draws [] (startingWith 0xabcdef)).


(** A form posted from another site. *)
Definition crossSitePost (u : string) : Request :=
  formPost "https://evil.example" u.

(** * Properties *)

(** ** [createKey]: what a run does *)

Section CreateKey.

Local Open Scope nat_scope.

Variable P : Platform.
Variable url : string.

Lemma createKey_step (fuel : nat) (w : World) :
  VariantA.createKey P (S fuel) url w =
    let key := candidate P (drawn w) in
    if js_not (kv w !! key) then
      Some (key, mkWorld (<[key := url]> (kv w)) (S (drawn w))
                         ((ops w ++ [KvGet key]) ++ [KvPut key url]))
    else
      match VariantA.createKey P fuel url
              (mkWorld (kv w) (S (drawn w)) (ops w ++ [KvGet key])) with
      | Some (_, w') => Some (key, w')
      | None => None
      end.
Proof.
  cbn [VariantA.createKey]. unfold bind, randomUUID, kv_get, kv_put, ret, candidate.
  cbn [kv drawn ops].
  destruct (js_not _) eqn:E; [reflexivity|].
  destruct (VariantA.createKey _ _ _ _) as [[k w']|]; reflexivity.
Qed.

(** With every one of the next [fuel] draws occupied, the run has not
    returned. *)
Lemma createKey_starved (fuel : nat) :
  forall w : World,
    (forall j, j < fuel -> js_not (kv w !! candidate P (drawn w + j)) = false) ->
    VariantA.createKey P fuel url w = None.
Proof.
  induction fuel as [|fuel IH]; intros w Hocc; [reflexivity|].
  rewrite createKey_step. cbv zeta.
  pose proof (Hocc 0 ltac:(lia)) as H0. rewrite Nat.add_0_r in H0. rewrite H0.
  rewrite IH; [reflexivity|].
  intros j Hj. cbn [kv drawn].
  replace (S (drawn w) + j) with (drawn w + S j) by lia.
  apply Hocc. lia.
Qed.

(** The run that finds its first free key at retry [n]. *)
Lemma createKey_finds (n : nat) :
  forall (fuel : nat) (w : World),
    n < fuel ->
    (forall j, j < n -> js_not (kv w !! candidate P (drawn w + j)) = false) ->
    js_not (kv w !! candidate P (drawn w + n)) = true ->
    VariantA.createKey P fuel url w =
      Some (candidate P (drawn w),
            mkWorld (<[candidate P (drawn w + n) := url]> (kv w))
                    (drawn w + S n)
                    (ops w ++ createKeyOps P url (drawn w) n)).
Proof.
  induction n as [|n IH]; intros fuel w Hfuel Hocc Hfree;
    (destruct fuel as [|fuel]; [lia|]); rewrite createKey_step; cbv zeta.
  - rewrite Nat.add_0_r in Hfree. rewrite Hfree.
    unfold createKeyOps. cbn [seq map]. rewrite !Nat.add_0_r.
    rewrite <- app_assoc. do 3 f_equal. lia.
  - pose proof (Hocc 0 ltac:(lia)) as H0. rewrite Nat.add_0_r in H0. rewrite H0.
    rewrite (IH fuel); cbn [kv drawn ops].
    + replace (S (drawn w) + n) with (drawn w + S n) by lia.
      replace (S (drawn w) + S n) with (drawn w + S (S n)) by lia.
      do 3 f_equal.
      rewrite <- app_assoc. f_equal.
      unfold createKeyOps.
      replace (S (drawn w) + n) with (drawn w + S n) by lia.
      change (seq 0 (S (S n))) with (0 :: seq 1 (S n)).
      rewrite <- seq_shift. cbn [map app]. rewrite map_map, Nat.add_0_r.
      do 2 f_equal. apply map_ext. intros j. do 2 f_equal. lia.
    + lia.
    + intros j Hj. replace (S (drawn w) + j) with (drawn w + S j) by lia.
      apply Hocc. lia.
    + replace (S (drawn w) + n) with (drawn w + S n) by lia. exact Hfree.
Qed.

(** Every run that returns is such a run. *)
Lemma createKey_returns (fuel : nat) :
  forall (w : World) (k : string) (w' : World),
    VariantA.createKey P fuel url w = Some (k, w') ->
    exists n,
      n < fuel /\
      (forall j, j < n -> js_not (kv w !! candidate P (drawn w + j)) = false) /\
      js_not (kv w !! candidate P (drawn w + n)) = true.
Proof.
  induction fuel as [|fuel IH]; intros w k w' Hrun; [discriminate|].
  rewrite createKey_step in Hrun. cbv zeta in Hrun.
  destruct (js_not (kv w !! candidate P (drawn w))) eqn:E.
  - exists 0. rewrite Nat.add_0_r. split; [lia|]. split; [intros; lia|exact E].
  - destruct (VariantA.createKey P fuel url _) as [[k1 w1]|] eqn:Hrec;
      [|discriminate].
    apply IH in Hrec. destruct Hrec as (n & Hn & Hocc & Hfree).
    cbn [kv drawn] in Hocc, Hfree.
    exists (S n). split; [lia|]. split.
    + intros [|j] Hj; [rewrite Nat.add_0_r; exact E|].
      replace (drawn w + S j) with (S (drawn w) + j) by lia. apply Hocc. lia.
    + replace (drawn w + S n) with (S (drawn w) + n) by lia. exact Hfree.
Qed.

Lemma createKey_result (fuel : nat) (w : World) (k : string) (w' : World) :
  VariantA.createKey P fuel url w = Some (k, w') ->
  exists n,
    n < fuel /\
    (forall j, j < n -> js_not (kv w !! candidate P (drawn w + j)) = false) /\
    js_not (kv w !! candidate P (drawn w + n)) = true /\
    k = candidate P (drawn w) /\
    w' = mkWorld (<[candidate P (drawn w + n) := url]> (kv w))
                 (drawn w + S n)
                 (ops w ++ createKeyOps P url (drawn w) n).
Proof.
  intros Hrun. destruct (createKey_returns _ _ _ _ Hrun) as (n & Hn & Hocc & Hfree).
  exists n. repeat split; try assumption;
    rewrite (createKey_finds n fuel w Hn Hocc Hfree) in Hrun; congruence.
Qed.

End CreateKey.

(** ** The shape of a generated key *)

Section KeyShape.

Lemma nibble_range (v : Z) (i : nat) : 0 <= nibble v i < 16.
Proof.
  unfold nibble. change 15 with (Z.ones 4).
  rewrite Z.land_ones by lia. apply Z.mod_pos_bound. lia.
Qed.

Lemma hexDigit_isHex (d : Z) : 0 <= d < 16 -> isHex (hexDigit d) = true.
Proof.
  intros Hd.
  assert (H : d = 0 \/ d = 1 \/ d = 2 \/ d = 3 \/ d = 4 \/ d = 5 \/ d = 6 \/
              d = 7 \/ d = 8 \/ d = 9 \/ d = 10 \/ d = 11 \/ d = 12 \/
              d = 13 \/ d = 14 \/ d = 15) by lia.
  repeat (destruct H as [-> | H]; [reflexivity|]). subst d. reflexivity.
Qed.

Lemma isHex_keyChar (c : ascii) :
  isHex c = true -> isDigit c || isLower c = true.
Proof.
  unfold isHex, isLower. cbv zeta. destruct (isDigit c); [reflexivity|].
  rewrite !orb_false_l, !andb_true_iff, !Nat.leb_le. lia.
Qed.

Lemma allChars_weaken (p q : ascii -> bool) (s : string) :
  (forall c, p c = true -> q c = true) ->
  allChars p s = true -> allChars q s = true.
Proof.
  intros Hpq. induction s as [|c s IH]; cbn; [reflexivity|].
  rewrite !andb_true_iff. intros [Hc Hs]. auto.
Qed.

Lemma hexRange_length (v : Z) (len i : nat) :
  String.length (hexRange v i len) = len.
Proof. revert i. induction len as [|len IH]; intros i; cbn; [|rewrite IH]; reflexivity. Qed.

Lemma hexRange_isHex (v : Z) (len i : nat) :
  allChars isHex (hexRange v i len) = true.
Proof.
  revert i. induction len as [|len IH]; intros i; cbn [hexRange allChars];
    [reflexivity|].
  rewrite IH, andb_true_r. apply hexDigit_isHex, nibble_range.
Qed.

(** The first six characters of the UUID are its first six digits. *)
Lemma substring_uuidString (n : Z) :
  substring 0 6 (uuidString n) = hexRange (uuidBits n) 0 6.
Proof. reflexivity. Qed.

(** The version and variant bits sit below the first six digits. *)
Lemma nibble_uuidBits (n : Z) (i : nat) :
  (i < 6)%nat -> nibble (uuidBits n) i = nibble (n mod 2 ^ 128) i.
Proof.
  intros Hi. unfold nibble, uuidBits. f_equal.
  apply Z.bits_inj'. intros b Hb.
  rewrite !Z.shiftr_spec by assumption.
  rewrite Z.lor_spec, Z.ldiff_spec.
  assert (Hhigh : 104 <= b + 4 * Z.of_nat (31 - i)) by lia.
  assert (Hsmall : forall a, 0 <= a < 2 ^ 80 ->
                   Z.testbit a (b + 4 * Z.of_nat (31 - i)) = false).
  { intros a Ha. destruct (Z.eq_dec a 0) as [->|Hne]; [apply Z.bits_0|].
    apply Z.bits_above_log2; [lia|].
    apply Z.lt_le_trans with 80; [apply Z.log2_lt_pow2; lia|lia]. }
  rewrite (Hsmall (Z.shiftl 15 76 + Z.shiftl 12 60)),
          (Hsmall (Z.shiftl 4 76 + Z.shiftl 8 60))
    by (split; [apply Z.leb_le|apply Z.ltb_lt]; reflexivity).
  rewrite orb_false_r, andb_true_r. reflexivity.
Qed.

Lemma hexRange_uuidBits (n : Z) :
  hexRange (uuidBits n) 0 6 = hexRange (n mod 2 ^ 128) 0 6.
Proof.
  cbn [hexRange]. rewrite !nibble_uuidBits by lia. reflexivity.
Qed.

End KeyShape.

Lemma candidate_matchKey (P : Platform) (i : nat) :
  matchKey (candidate P i) = true.
Proof.
  unfold candidate. rewrite substring_uuidString.
  unfold matchKey. rewrite hexRange_length. cbn [Nat.eqb andb].
  apply allChars_weaken with (p := isHex); [apply isHex_keyChar|].
  apply hexRange_isHex.
Qed.

(** The first six characters of a UUID are the six leading hexadecimal
    digits of the value it was made from. *)
Lemma uuid_key_shape (n : Z) :
  substring 0 6 (uuidString n) = hexRange (n mod 2 ^ 128) 0 6 /\
  sixHexDigits (substring 0 6 (uuidString n)).
Proof.
  rewrite substring_uuidString.
  split; [apply hexRange_uuidBits|].
  split; [apply hexRange_length|]. split; [apply hexRange_isHex|].
  unfold matchKey. rewrite hexRange_length. cbn [Nat.eqb andb].
  apply allChars_weaken with (p := isHex); [apply isHex_keyChar|].
  apply hexRange_isHex.
Qed.

Lemma candidate_shape (P : Platform) (i : nat) : sixHexDigits (candidate P i).
Proof. unfold candidate. apply uuid_key_shape. Qed.

(** ** Routing *)

Section Routing.

Variable postCreate : Handler.

Lemma router_get_key (r : Request) (key : string) :
  method r = GET -> path r = String "/" key -> matchKey key = true ->
  router postCreate r = getKey key r.
Proof.
  intros Hm Hp Hk. unfold router, routes, renderer, keyParam.
  rewrite Hm, Hp, Hk. reflexivity.
Qed.

Lemma router_post_create (r : Request) :
  method r = POST -> path r = "/create"%string ->
  router postCreate r = postCreate r.
Proof.
  intros Hm Hp. unfold router, routes, renderer. rewrite Hm, Hp. reflexivity.
Qed.

Lemma getKey_run (key : string) (r : Request) (w : World) :
  getKey key r w =
    Some (match kv w !! key with
          | Some url => Redirect url 302
          | None => Redirect "/" 302
          end,
          mkWorld (kv w) (drawn w) (ops w ++ [KvGet key])).
Proof.
  unfold getKey, bind, kv_get, ret, redirect.
  destruct (kv w !! key); reflexivity.
Qed.

Lemma routes_run (m : Method) (r : Request) (w : World) :
  routes postCreate m r w =
    match m with
    | GET =>
        match keyParam (path r) with
        | Some key => getKey key r w
        | None =>
            Some (if String.eqb (path r) "/" then render TopPage else NotFound, w)
        end
    | POST =>
        if String.eqb (path r) "/create" then postCreate r w
        else Some (NotFound, w)
    | _ => Some (NotFound, w)
    end.
Proof.
  unfold routes, renderer, getTop, ret.
  destruct m; try reflexivity.
  - destruct (keyParam (path r)); [|destruct (String.eqb (path r) "/")];
      reflexivity.
  - destruct (String.eqb (path r) "/create"); reflexivity.
Qed.

Lemma router_run (r : Request) (w : World) :
  router postCreate r w =
    match method r with
    | HEAD =>
        match routes postCreate GET r w with
        | Some (response, w') => Some (NoBody response, w')
        | None => None
        end
    | m => routes postCreate m r w
    end.
Proof.
  unfold router, bind, ret. destruct (method r); reflexivity.
Qed.

(** A request leaves the contents of the store as they were, unless it
    is a [POST /create], which is answered by the creation route. *)
Lemma router_cases (r : Request) (w : World) (response : Response)
    (w' : World) :
  router postCreate r w = Some (response, w') ->
  kv w' = kv w \/
  (method r = POST /\ path r = "/create"%string /\
   postCreate r w = Some (response, w')).
Proof.
  rewrite router_run.
  assert (Hget : forall (resp : Response) (w1 : World),
             routes postCreate GET r w = Some (resp, w1) -> kv w1 = kv w).
  { intros resp w1. rewrite routes_run.
    destruct (keyParam (path r)) as [key|].
    - rewrite getKey_run. intros [= _ <-]. reflexivity.
    - intros [= _ <-]. reflexivity. }
  destruct (method r) eqn:Hm;
    try (rewrite routes_run; intros [= _ <-]; left; reflexivity).
  - intros Hrun. left. eapply Hget. exact Hrun.
  - destruct (routes postCreate GET r w) as [[resp w1]|] eqn:Hrun;
      [|discriminate].
    intros [= _ <-]. left. eapply Hget. reflexivity.
  - rewrite routes_run.
    destruct (String.eqb (path r) "/create") eqn:Hp;
      [|intros [= _ <-]; left; reflexivity].
    apply String.eqb_eq in Hp. intros Hrun. right. auto.
Qed.

End Routing.

(** C3. For every key matching [[0-9a-z]{6}], [GET /<key>] answers with a
    302 redirect to the stored target when the store has a value for the
    key, and with a 302 redirect to [/] when it has none; the contents of
    the store are the same afterwards, the only store operation issued
    being the [get] of that key.  Both versions of the application have
    this route. *)
Theorem get_key_redirects (P : Platform) (fuel : nat) (r : Request)
    (key : string) (w : World) :
  matchKey key = true ->
  method r = GET ->
  path r = ("/" +:+ key)%string ->
  let response :=
    match kv w !! key with
    | Some url => Redirect url 302
    | None => Redirect "/" 302
    end in
  let w' := mkWorld (kv w) (drawn w) (ops w ++ [KvGet key]) in
  VariantA.app P fuel r w = Some (response, w') /\
  VariantB.app P r w = Some (response, w') /\
  kv w' = kv w.
Proof.
  intros Hk Hm Hp response w'. unfold VariantA.app, VariantB.app.
  rewrite !(router_get_key _ r key Hm Hp Hk), !getKey_run.
  repeat split.
Qed.

Lemma get_key_redirects_witness :
  VariantA.app twoDraws 1 (getPath "/abcdef") takenWorld
    = Some (Redirect oldTarget 302,
            mkWorld (kv takenWorld) 0 [KvGet "abcdef"]) /\
  VariantA.app twoDraws 1 (getPath "/123456") takenWorld
    = Some (Redirect "/" 302,
            mkWorld (kv takenWorld) 0 [KvGet "123456"]).
Proof.
  split.
  - apply (get_key_redirects twoDraws 1 (getPath "/abcdef") "abcdef" takenWorld);
      reflexivity.
  - apply (get_key_redirects twoDraws 1 (getPath "/123456") "123456" takenWorld);
      reflexivity.
Defined.

(** ** The middleware in front of the creation handler *)

Section Guards.

Variable P : Platform.

Lemma csrf_rejects (next : Handler) (r : Request) (w : World) :
  csrfAllows P r = false -> csrf P next r w = Some (Forbidden, w).
Proof. intros H. unfold csrf. rewrite H. reflexivity. Qed.

Lemma csrf_passes (next : Handler) (r : Request) :
  csrfAllows P r = true -> csrf P next r = next r.
Proof. intros H. unfold csrf. rewrite H. reflexivity. Qed.

Lemma validator_rejects (next : string -> Handler) (r : Request) (w : World) :
  schema P (form r) = None ->
  validator P next r w = Some (render ErrorPage, w).
Proof. intros H. unfold validator, zValidator. rewrite H. reflexivity. Qed.

Lemma validator_passes (next : string -> Handler) (r : Request) (url : string) :
  schema P (form r) = Some url -> validator P next r = next url r.
Proof. intros H. unfold validator, zValidator. rewrite H. reflexivity. Qed.

(** The success of [schema]: the form has a [url] field that parses. *)
Lemma schema_Some (f : gmap string string) (url : string) :
  schema P f = Some url <-> f !! "url"%string = Some url /\ zodUrl P url = true.
Proof.
  unfold schema. destruct (f !! "url"%string) as [u|]; [|split; [|intros []]; discriminate].
  destruct (zodUrl P u) eqn:E; split.
  - intros [= ->]. auto.
  - intros [[= ->] _]. reflexivity.
  - discriminate.
  - intros [[= ->] Hu]. congruence.
Qed.

Lemma postCreate_run (fuel : nat) (r : Request) (w : World) :
  VariantA.postCreate P fuel r w =
    if csrfAllows P r then
      match schema P (form r) with
      | None => Some (render ErrorPage, w)
      | Some url =>
          match VariantA.createKey P fuel url w with
          | Some (key, w') =>
              Some (render (CreatedPage
                              (resolveUrl P ("/" +:+ key) (reqUrl r))), w')
          | None => None
          end
      end
    else Some (Forbidden, w).
Proof.
  unfold VariantA.postCreate.
  destruct (csrfAllows P r) eqn:Hc;
    [rewrite csrf_passes by assumption | apply csrf_rejects; assumption].
  destruct (schema P (form r)) as [url|] eqn:Hs;
    [rewrite (validator_passes _ _ _ Hs) | apply validator_rejects; assumption].
  unfold bind, created, ret.
  destruct (VariantA.createKey P fuel url w) as [[key w']|]; reflexivity.
Qed.

End Guards.

(** C6. On [POST /create] the CSRF guard runs before the form validator:
    when it rejects a request, whatever comes after it in the chain is not
    run.  The answer is the guard's rejection for every continuation, in
    particular on the route itself, and the world is the one before the
    request: nothing read from or written to the store, nothing drawn.
    When the guard lets a request pass, the route is the validator followed
    by the creation handler. *)
Theorem csrf_runs_first (P : Platform) (fuel : nat) (r : Request) (w : World) :
  (csrfAllows P r = false ->
     (forall next : Handler, csrf P next r w = Some (Forbidden, w)) /\
     (method r = POST -> path r = "/create"%string ->
      VariantA.app P fuel r w = Some (Forbidden, w))) /\
  (csrfAllows P r = true ->
     VariantA.postCreate P fuel r =
       validator P (fun url c =>
         let* key := VariantA.createKey P fuel url in created P key c) r).
Proof.
  split.
  - intros Hc. split.
    + intros next. apply csrf_rejects. exact Hc.
    + intros Hm Hp. unfold VariantA.app. rewrite router_post_create by assumption.
      rewrite postCreate_run, Hc. reflexivity.
  - intros Hc. unfold VariantA.postCreate. apply csrf_passes. exact Hc.
Qed.

Lemma csrf_runs_first_witness :
  VariantA.app twoDraws 2 (crossSitePost "not-a-url") takenWorld
    = Some (Forbidden, takenWorld) /\
  VariantA.app twoDraws 2 (crossSitePost target) takenWorld
    = Some (Forbidden, takenWorld).
Proof.
  split.
  - apply (csrf_runs_first twoDraws 2 (crossSitePost "not-a-url") takenWorld);
      reflexivity.
  - apply (csrf_runs_first twoDraws 2 (crossSitePost target) takenWorld);
      reflexivity.
Defined.

(** C4, as stated, fails on a form posted from another site: the guard in
    front of the validator answers, and the response is its rejection, not
    the error page. *)
Lemma invalid_url_cross_site_is_forbidden :
  let r := crossSitePost "not-a-url" in
  method r = POST /\ path r = "/create"%string /\
  schema twoDraws (form r) = None /\
  VariantA.app twoDraws 2 r takenWorld = Some (Forbidden, takenWorld) /\
  VariantA.app twoDraws 2 r takenWorld <> Some (render ErrorPage, takenWorld).
Proof.
  cbv zeta. repeat split; try reflexivity.
  assert (H : VariantA.app twoDraws 2 (crossSitePost "not-a-url") takenWorld
              = Some (Forbidden, takenWorld)) by reflexivity.
  rewrite H. discriminate.
Qed.

(** C4, amended. For every form submission to [POST /create] whose [url]
    field is missing or does not parse as an absolute URL: the validator
    answers with the error page without calling the handler, for every
    handler; a submission that passes the CSRF guard gets the error page
    from the route; and whether or not it passes the guard, the world after
    the request is the world before it (no store operation, no key
    drawn). *)
Theorem invalid_url_gets_error_page (P : Platform) (fuel : nat) (r : Request)
    (w : World) :
  method r = POST -> path r = "/create"%string ->
  schema P (form r) = None ->
  (forall next : string -> Handler,
     validator P next r w = Some (render ErrorPage, w)) /\
  (csrfAllows P r = true ->
     VariantA.app P fuel r w = Some (render ErrorPage, w)) /\
  (exists response, VariantA.app P fuel r w = Some (response, w)).
Proof.
  intros Hm Hp Hs. split; [|split].
  - intros next. apply validator_rejects. exact Hs.
  - intros Hc. unfold VariantA.app. rewrite router_post_create by assumption.
    rewrite postCreate_run, Hc, Hs. reflexivity.
  - unfold VariantA.app. rewrite router_post_create by assumption.
    rewrite postCreate_run, Hs. destruct (csrfAllows P r); eauto.
Qed.

Lemma invalid_url_gets_error_page_witness :
  VariantA.app twoDraws 2 (formPost siteOrigin "not-a-url") takenWorld
    = Some (render ErrorPage, takenWorld).
Proof.
  apply (invalid_url_gets_error_page twoDraws 2
           (formPost siteOrigin "not-a-url") takenWorld); reflexivity.
Defined.

(** ** [createKey] and the store *)

Lemma js_not_true_iff (v : option string) :
  js_not v = true <-> v = None \/ v = Some EmptyString.
Proof.
  destruct v as [[|a s]|]; cbn; split; intros H; auto;
    try discriminate; destruct H; discriminate.
Qed.

Lemma js_not_false_iff (v : option string) :
  js_not v = false <-> exists s, v = Some s /\ s <> EmptyString.
Proof.
  destruct v as [[|a t]|]; cbn; split; try discriminate;
    try (intros (s & H & Hs); congruence).
  intros _. exists (String a t). split; [reflexivity|discriminate].
Qed.

Section CreateKeyStore.

Local Open Scope nat_scope.

Variable P : Platform.
Variable url : string.

(** A run that returns leaves every mapping to a non-empty value as it
    was: the key it writes had no value, or the empty one. *)
Lemma createKey_frame (fuel : nat) (w : World) (k : string) (w' : World) :
  VariantA.createKey P fuel url w = Some (k, w') ->
  forall (key v : string),
    kv w !! key = Some v -> v <> EmptyString -> kv w' !! key = Some v.
Proof.
  intros Hrun key v Hkey Hv.
  destruct (createKey_result P url fuel w k w' Hrun)
    as (n & _ & _ & Hfree & _ & ->).
  cbn [kv]. rewrite lookup_insert_ne; [exact Hkey|].
  intros <-. rewrite Hkey in Hfree.
  apply js_not_true_iff in Hfree. destruct Hfree as [H|H]; congruence.
Qed.

(** A run that returns has written [url] under the key of its last draw. *)
Lemma createKey_written (fuel : nat) (w : World) (k : string) (w' : World) :
  VariantA.createKey P fuel url w = Some (k, w') ->
  exists n, n < fuel /\ kv w' !! candidate P (drawn w + n) = Some url.
Proof.
  intros Hrun.
  destruct (createKey_result P url fuel w k w' Hrun)
    as (n & Hn & _ & _ & _ & ->).
  exists n. split; [exact Hn|]. cbn [kv]. apply lookup_insert_eq.
Qed.

(** After a collision at its first draw, a run that returns gives back the
    key of that first draw, which still maps to what it mapped to. *)
Lemma createKey_after_collision (fuel : nat) (w : World) (k : string)
    (w' : World) (v : string) :
  kv w !! candidate P (drawn w) = Some v -> v <> EmptyString ->
  VariantA.createKey P fuel url w = Some (k, w') ->
  k = candidate P (drawn w) /\ kv w' !! k = Some v.
Proof.
  intros Hv Hne Hrun.
  destruct (createKey_result P url fuel w k w' Hrun)
    as (n & _ & _ & _ & -> & _).
  split; [reflexivity|]. eapply createKey_frame; eassumption.
Qed.

(** Enough fuel for a run in which draw [n] is free. *)
Lemma createKey_enough_fuel (n : nat) :
  forall w : World,
    js_not (kv w !! candidate P (drawn w + n)) = true ->
    exists k w', VariantA.createKey P (S n) url w = Some (k, w').
Proof.
  induction n as [|n IH]; intros w Hfree; rewrite createKey_step; cbv zeta.
  - rewrite Nat.add_0_r in Hfree. rewrite Hfree. eauto.
  - destruct (js_not (kv w !! candidate P (drawn w))); [eauto|].
    destruct (IH (mkWorld (kv w) (S (drawn w))
                          (ops w ++ [KvGet (candidate P (drawn w))])))
      as (k & w' & Hrec).
    + cbn [kv drawn]. replace (S (drawn w) + n) with (drawn w + S n) by lia.
      exact Hfree.
    + rewrite Hrec. eauto.
Qed.

(** The function of the tutorial returns the key it wrote. *)
Lemma tutorial_createKey_resolves (fuel : nat) :
  forall (w : World) (k : string) (w' : World),
    Tutorial.createKey P fuel url w = Some (k, w') ->
    kv w' !! k = Some url.
Proof.
  induction fuel as [|fuel IH]; intros w k w' Hrun; [discriminate|].
  cbn [Tutorial.createKey] in Hrun.
  unfold bind, randomUUID, kv_get, kv_put, ret in Hrun. cbn [kv drawn ops] in Hrun.
  destruct (js_not _) eqn:E.
  - injection Hrun as <- <-. cbn [kv]. apply lookup_insert_eq.
  - eapply IH. exact Hrun.
Qed.

End CreateKeyStore.

(** C1, at a store in which the key of the first draw is taken.  [createKey]
    retries, writes the submitted URL under the key of the second draw,
    [123456], and returns the key of the first, [abcdef]: the page shows
    [/abcdef], and [GET /abcdef] redirects to the URL stored there before.
    The function of the tutorial returns [123456] from the same run. *)
Theorem createKey_returns_taken_key :
  exists w' : World,
    VariantA.createKey twoDraws 2 target takenWorld = Some ("abcdef"%string, w') /\
    kv w' !! "abcdef"%string = Some oldTarget /\
    kv w' !! "123456"%string = Some target /\
    VariantA.app twoDraws 2 (formPost siteOrigin target) takenWorld
      = Some (render (CreatedPage "https://sho.rt/abcdef"), w') /\
    (exists w'', VariantA.app twoDraws 2 (getPath "/abcdef") w'
                 = Some (Redirect oldTarget 302, w'')) /\
    Tutorial.createKey twoDraws 2 target takenWorld = Some ("123456"%string, w').
Proof.
  eexists. split; [vm_compute; reflexivity|].
  split; [reflexivity|]. split; [reflexivity|]. split; [reflexivity|].
  split; [eexists; vm_compute; reflexivity|reflexivity].
Qed.

(** ** What a request does to the store *)

Section AppStore.

Variable P : Platform.

(** No request to the application changes a mapping to a non-empty value:
    links are not updated or deleted. *)
Lemma app_frame (fuel : nat) (r : Request) (w : World) (response : Response)
    (w' : World) :
  VariantA.app P fuel r w = Some (response, w') ->
  forall key v : string,
    kv w !! key = Some v -> v <> EmptyString -> kv w' !! key = Some v.
Proof.
  unfold VariantA.app. intros Hrun key v Hkey Hv.
  destruct (router_cases _ r w response w' Hrun) as [->|(_ & _ & Hpost)];
    [exact Hkey|].
  rewrite postCreate_run in Hpost.
  destruct (csrfAllows P r); [|injection Hpost as _ <-; exact Hkey].
  destruct (schema P (form r)) as [url|]; [|injection Hpost as _ <-; exact Hkey].
  destruct (VariantA.createKey P fuel url w) as [[k w1]|] eqn:Hck;
    [|discriminate].
  injection Hpost as _ <-. eapply createKey_frame; eassumption.
Qed.

(** A creation page is the answer to a run of [createKey] on the [url]
    field of the form. *)
Lemma app_created (fuel : nat) (r : Request) (w : World) (shortenUrl : string)
    (w' : World) :
  method r = POST -> path r = "/create"%string ->
  VariantA.app P fuel r w = Some (render (CreatedPage shortenUrl), w') ->
  exists url k,
    form r !! "url"%string = Some url /\ zodUrl P url = true /\
    csrfAllows P r = true /\
    VariantA.createKey P fuel url w = Some (k, w').
Proof.
  intros Hm Hp. unfold VariantA.app.
  rewrite router_post_create by assumption. rewrite postCreate_run.
  destruct (csrfAllows P r); [|discriminate].
  destruct (schema P (form r)) as [url|] eqn:Hs; [|discriminate].
  destruct (VariantA.createKey P fuel url w) as [[k w1]|] eqn:Hck;
    [|discriminate].
  intros [= _ <-]. apply schema_Some in Hs. destruct Hs as [Hf Hu].
  exists url, k. auto.
Qed.

End AppStore.

(** The stores of the data model hold links, whose targets are URLs: no
    stored value is the empty string.  On them [!result] is true exactly
    for the keys without a value. *)
Lemma js_not_absent (w : World) (key : string) :
  valuesNonEmpty w ->
  (js_not (kv w !! key) = true <-> kv w !! key = None).
Proof.
  intros Hw. rewrite js_not_true_iff. split; [|auto].
  intros [H|H]; [exact H|]. exfalso. eapply Hw; [exact H|reflexivity].
Qed.

Lemma takenWorld_valuesNonEmpty : valuesNonEmpty takenWorld.
Proof.
  intros key v H. cbn [kv takenWorld] in H.
  apply lookup_singleton_Some in H. destruct H as [_ <-]. discriminate.
Qed.

(** Outside the data model, on a store that holds the empty string under
    the key of the first draw, [!result] is true for that key and
    [createKey] writes the submitted URL under it. *)
Lemma createKey_overwrites_empty_value :
  kv emptyValueWorld !! candidate twoDraws (drawn emptyValueWorld)
    = Some EmptyString /\
  exists w' : World,
    VariantA.createKey twoDraws 2 target emptyValueWorld
      = Some (candidate twoDraws (drawn emptyValueWorld), w') /\
    kv w' !! candidate twoDraws (drawn emptyValueWorld) = Some target /\
    kv w' !! candidate twoDraws (drawn emptyValueWorld)
      <> kv emptyValueWorld !! candidate twoDraws (drawn emptyValueWorld).
Proof.
  split; [reflexivity|]. eexists. split; [vm_compute; reflexivity|].
  split; [reflexivity|]. vm_compute. discriminate.
Qed.

(** C2. For every store of links (no stored target is the empty string)
    in which the key of the first draw already has a stored value,
    [createKey] does not overwrite that mapping: a call that returns has
    retried, has written the URL under the key of a later draw, different
    from the colliding key, and the store still maps the colliding key to
    its original value; so it does after the [POST /create] request that
    made the call, and after any other request. *)
Theorem createKey_keeps_colliding_mapping (P : Platform) (fuel : nat)
    (url : string) (w : World) (v : string) :
  valuesNonEmpty w ->
  kv w !! candidate P (drawn w) = Some v ->
  (forall (k : string) (w' : World),
     VariantA.createKey P fuel url w = Some (k, w') ->
     kv w' !! candidate P (drawn w) = Some v /\
     exists n : nat,
       (0 < n)%nat /\
       candidate P (drawn w + n) <> candidate P (drawn w) /\
       kv w' = <[candidate P (drawn w + n)%nat := url]> (kv w)) /\
  (forall (r : Request) (response : Response) (w' : World),
     VariantA.app P fuel r w = Some (response, w') ->
     kv w' !! candidate P (drawn w) = Some v).
Proof.
  intros Hw Hv.
  assert (Hne : v <> EmptyString) by (eapply Hw; exact Hv).
  split.
  - intros k w' Hrun. split; [eapply createKey_frame; eassumption|].
    destruct (createKey_result P url fuel w k w' Hrun)
      as (n & _ & _ & Hfree & _ & ->).
    assert (Hkey : candidate P (drawn w + n) <> candidate P (drawn w)).
    { intros Heq. rewrite Heq in Hfree.
      apply js_not_absent in Hfree; [congruence|exact Hw]. }
    exists n. split; [|split; [exact Hkey|reflexivity]].
    destruct n as [|n]; [|lia]. rewrite Nat.add_0_r in Hkey. congruence.
  - intros r response w' Hrun. eapply app_frame; eassumption.
Qed.

Lemma createKey_keeps_colliding_mapping_witness :
  exists w' : World,
    VariantA.createKey twoDraws 2 target takenWorld
      = Some ("abcdef"%string, w') /\
    kv w' !! "abcdef"%string = Some oldTarget.
Proof.
  eexists. split; [vm_compute; reflexivity|].
  apply (proj1 (createKey_keeps_colliding_mapping twoDraws 2 target takenWorld
                  oldTarget takenWorld_valuesNonEmpty eq_refl)
               "abcdef"%string).
  vm_compute; reflexivity.
Defined.

(** C9. After every call of [createKey] that returns, the store has a key,
    of the route's pattern, whose value is the submitted URL, also when
    the first candidate collided; so after every [POST /create] answered
    with the creation page the store maps some such key to the [url] field
    of the form. *)
Theorem create_stores_target (P : Platform) (fuel : nat) (w : World) :
  (forall (url k : string) (w' : World),
     VariantA.createKey P fuel url w = Some (k, w') ->
     exists key, matchKey key = true /\ kv w' !! key = Some url) /\
  (forall (r : Request) (shortenUrl : string) (w' : World),
     method r = POST -> path r = "/create"%string ->
     VariantA.app P fuel r w = Some (render (CreatedPage shortenUrl), w') ->
     exists url key,
       form r !! "url"%string = Some url /\
       matchKey key = true /\ kv w' !! key = Some url).
Proof.
  assert (Hck : forall (url k : string) (w' : World),
             VariantA.createKey P fuel url w = Some (k, w') ->
             exists key, matchKey key = true /\ kv w' !! key = Some url).
  { intros url k w' Hrun.
    destruct (createKey_written P url fuel w k w' Hrun) as (n & _ & Hn).
    exists (candidate P (drawn w + n)). split; [apply candidate_matchKey|exact Hn]. }
  split; [exact Hck|].
  intros r shortenUrl w' Hm Hp Hrun.
  destruct (app_created P fuel r w shortenUrl w' Hm Hp Hrun)
    as (url & k & Hf & _ & _ & Hrun').
  destruct (Hck url k w' Hrun') as (key & Hkey & Hurl).
  exists url, key. auto.
Qed.

Lemma create_stores_target_witness :
  exists w' : World,
    VariantA.createKey twoDraws 2 target takenWorld = Some ("abcdef"%string, w') /\
    exists key, matchKey key = true /\ kv w' !! key = Some target.
Proof.
  eexists. split; [vm_compute; reflexivity|].
  apply (proj1 (create_stores_target twoDraws 2 takenWorld) target "abcdef"%string).
  vm_compute; reflexivity.
Defined.

(** ** Termination of [createKey] *)

Section CreateKeyFuel.

Local Open Scope nat_scope.

(** The result of a run does not depend on the fuel left over. *)
Lemma createKey_more_fuel (P : Platform) (url : string) (fuel fuel' : nat)
    (w : World) (k : string) (w' : World) :
  VariantA.createKey P fuel url w = Some (k, w') -> fuel <= fuel' ->
  VariantA.createKey P fuel' url w = Some (k, w').
Proof.
  intros Hrun Hle.
  destruct (createKey_result P url fuel w k w' Hrun)
    as (n & Hn & Hocc & Hfree & -> & ->).
  apply createKey_finds; [lia|assumption|assumption].
Qed.

Lemma candidate_sameDraw (i : nat) : candidate sameDraw i = "abcdef"%string.
Proof.
  unfold candidate, sameDraw, examplePlatform, draws. cbn [entropy].
  destruct i; reflexivity.
Qed.

Lemma candidate_lateDraw (n i : nat) :
  candidate (lateDraw n) i
    = if i <? n then "abcdef"%string else "123456"%string.
Proof.
  unfold candidate, lateDraw, examplePlatform. cbn [entropy].
  destruct (i <? n); reflexivity.
Qed.

(** For every [n] there is a run that draws [n] taken keys before it finds
    a free one. *)
Lemma createKey_unbounded (url : string) (n : nat) :
  VariantA.createKey (lateDraw n) n url takenWorld = None /\
  exists (k : string) (w' : World),
    VariantA.createKey (lateDraw n) (S n) url takenWorld = Some (k, w').
Proof.
  assert (Hocc : forall j, j < n ->
            js_not (kv takenWorld !! candidate (lateDraw n) (drawn takenWorld + j))
              = false).
  { intros j Hj. rewrite candidate_lateDraw. cbn [drawn takenWorld Nat.add].
    apply Nat.ltb_lt in Hj. rewrite Hj. reflexivity. }
  split; [apply createKey_starved; exact Hocc|].
  do 2 eexists. apply createKey_finds with (n := n); [lia|exact Hocc|].
  rewrite candidate_lateDraw. cbn [drawn takenWorld Nat.add].
  rewrite Nat.ltb_irrefl. reflexivity.
Qed.

End CreateKeyFuel.

(** Outside the data model, with the empty string stored under the only
    key ever drawn, no drawn key is absent from the store and [createKey]
    returns at its first draw. *)
Lemma createKey_returns_with_no_key_absent :
  (forall n : nat,
     kv emptyValueWorld !! candidate sameDraw (drawn emptyValueWorld + n)
       = Some EmptyString) /\
  (forall n : nat,
     kv emptyValueWorld !! candidate sameDraw (drawn emptyValueWorld + n)
       <> None) /\
  exists w' : World,
    VariantA.createKey sameDraw 1 target emptyValueWorld
      = Some ("abcdef"%string, w').
Proof.
  split; [|split].
  - intros n. rewrite candidate_sameDraw. reflexivity.
  - intros n. rewrite candidate_sameDraw. discriminate.
  - eexists. vm_compute. reflexivity.
Qed.

(** C8. The retry of [createKey] has no fixed bound and no error outcome.
    On every store of links (no stored target is the empty string) a call
    returns exactly when some drawn candidate key is absent from the store,
    and does not return, whatever the fuel, when every drawn candidate is
    occupied; for every [n] there is a store of links and a run on it that
    needs more than [n] draws and still returns. *)
Theorem createKey_terminates_iff (P : Platform) (url : string) (w : World) :
  valuesNonEmpty w ->
  ((exists (fuel : nat) (k : string) (w' : World),
      VariantA.createKey P fuel url w = Some (k, w')) <->
   (exists n : nat, kv w !! candidate P (drawn w + n) = None)) /\
  ((forall n : nat, is_Some (kv w !! candidate P (drawn w + n))) ->
   forall fuel : nat, VariantA.createKey P fuel url w = None) /\
  (forall n : nat,
     exists (P' : Platform) (w0 : World),
       valuesNonEmpty w0 /\
       VariantA.createKey P' n url w0 = None /\
       exists (k : string) (w' : World),
         VariantA.createKey P' (S n) url w0 = Some (k, w')).
Proof.
  intros Hw. split; [|split].
  - split.
    + intros (fuel & k & w' & Hrun).
      destruct (createKey_returns P url fuel w k w' Hrun) as (n & _ & _ & Hfree).
      exists n. apply js_not_absent; assumption.
    + intros (n & Hfree). exists (S n). apply createKey_enough_fuel.
      apply js_not_absent; assumption.
  - intros Hocc fuel. apply createKey_starved. intros j _.
    destruct (js_not (kv w !! candidate P (drawn w + j))) eqn:E; [|reflexivity].
    apply js_not_absent in E; [|exact Hw].
    destruct (Hocc j) as [v Hv]. congruence.
  - intros n. exists (lateDraw n), takenWorld.
    split; [exact takenWorld_valuesNonEmpty|apply createKey_unbounded].
Qed.

Lemma createKey_terminates_iff_witness :
  (exists (fuel : nat) (k : string) (w' : World),
     VariantA.createKey twoDraws fuel target takenWorld = Some (k, w')) /\
  VariantA.createKey sameDraw 50 target takenWorld = None.
Proof.
  split.
  - apply (proj1 (createKey_terminates_iff twoDraws target takenWorld
                    takenWorld_valuesNonEmpty)).
    exists 1%nat. reflexivity.
  - apply (proj1 (proj2 (createKey_terminates_iff sameDraw target takenWorld
                           takenWorld_valuesNonEmpty))).
    intros n. exists oldTarget. rewrite candidate_sameDraw. reflexivity.
Defined.

(** ** The earlier version of [POST /create] *)

Section EarlierVersion.

Variable P : Platform.

Lemma variantB_postCreate_run (r : Request) (w : World) :
  VariantB.postCreate P r w =
    match schema P (form r) with
    | None => Some (render ErrorPage, w)
    | Some url =>
        let key := candidate P (drawn w) in
        if js_not (kv w !! url) then
          Some (render (CreatedPage (resolveUrl P ("/" +:+ key) (reqUrl r))),
                mkWorld (<[key := url]> (kv w)) (S (drawn w))
                        (ops w ++ [KvGet url; KvPut key url]))
        else
          Some (render (CreatedPage
                          (resolveUrl P ("/" +:+ default EmptyString (kv w !! url))
                                      (reqUrl r))),
                mkWorld (kv w) (S (drawn w)) (ops w ++ [KvGet url]))
    end.
Proof.
  unfold VariantB.postCreate.
  destruct (schema P (form r)) as [url|] eqn:Hs;
    [rewrite (validator_passes _ _ _ _ Hs) | apply validator_rejects; assumption].
  unfold bind, randomUUID, kv_get, kv_put, created, ret, candidate.
  cbn [kv drawn ops]. cbv zeta.
  destruct (kv w !! url) as [[|a s]|]; cbn [js_not default kv drawn ops];
    rewrite <- ?app_assoc; reflexivity.
Qed.


(** The lookup is by the submitted URL and the write is under the new key:
    unless that key is the URL itself, the next lookup of the same URL
    misses again. *)
Lemma variantB_lookup_misses_again (r : Request) (url : string) (w : World) :
  method r = POST -> path r = "/create"%string ->
  schema P (form r) = Some url ->
  kv w !! url = None ->
  candidate P (drawn w) <> url ->
  exists w' : World,
    VariantB.app P r w
      = Some (render (CreatedPage
                        (resolveUrl P ("/" +:+ candidate P (drawn w)) (reqUrl r))),
              w') /\
    kv w' !! url = None /\ drawn w' = S (drawn w).
Proof.
  intros Hm Hp Hs Hmiss Hne. unfold VariantB.app.
  rewrite router_post_create by assumption.
  rewrite variantB_postCreate_run, Hs. cbv zeta. rewrite Hmiss. cbn [js_not].
  eexists. split; [reflexivity|]. cbn [kv drawn].
  split; [|reflexivity]. rewrite lookup_insert_ne; assumption.
Qed.

End EarlierVersion.

(** C7, at the empty store.  The handler looks the submitted URL up as a
    key and, finding nothing, writes it as the value of a new key; the same
    URL submitted again is looked up as a key again, is not found again,
    and gets a second key: the two requests return different keys and the
    store ends with two links to the same destination. *)
Theorem variantB_same_target_two_keys :
  exists w1 w2 : World,
    VariantB.app twoDraws (formPost siteOrigin target) emptyWorld
      = Some (render (CreatedPage "https://sho.rt/abcdef"), w1) /\
    VariantB.app twoDraws (formPost siteOrigin target) w1
      = Some (render (CreatedPage "https://sho.rt/123456"), w2) /\
    kv w2 !! "abcdef"%string = Some target /\
    kv w2 !! "123456"%string = Some target /\
    ops w2 = [KvGet target; KvPut "abcdef" target;
              KvGet target; KvPut "123456" target].
Proof.
  do 2 eexists. split; [vm_compute; reflexivity|].
  split; [vm_compute; reflexivity|]. repeat split.
Qed.




(** ** Stores written by the application *)

Section ReachableStores.

Variable P : Platform.

(** Without a collision at the first draw the key returned is the key
    written. *)
Lemma createKey_first_free (fuel : nat) (url : string) (w : World) :
  js_not (kv w !! candidate P (drawn w)) = true ->
  exists w' : World,
    VariantA.createKey P (S fuel) url w = Some (candidate P (drawn w), w') /\
    kv w' !! candidate P (drawn w) = Some url.
Proof.
  intros Hfree. rewrite createKey_step. cbv zeta. rewrite Hfree.
  eexists. split; [reflexivity|]. cbn [kv]. apply lookup_insert_eq.
Qed.

(** The validator lets no empty [url] through, so the application never
    writes an empty value: a store whose values are non-empty stays so. *)
Lemma app_valuesNonEmpty (fuel : nat) (r : Request) (w : World)
    (response : Response) (w' : World) :
  zodUrl P EmptyString = false ->
  valuesNonEmpty w ->
  VariantA.app P fuel r w = Some (response, w') ->
  valuesNonEmpty w'.
Proof.
  intros Hzod Hw Hrun key v Hkey.
  destruct (kv w !! key) as [v0|] eqn:Hold.
  - assert (Hv0 : v0 <> EmptyString) by (eapply Hw; eassumption).
    rewrite (app_frame P fuel r w response w' Hrun key v0 Hold Hv0) in Hkey.
    congruence.
  - unfold VariantA.app in Hrun.
    destruct (router_cases _ r w response w' Hrun) as [Hsame|(_ & _ & Hpost)];
      [rewrite Hsame in Hkey; congruence|].
    rewrite postCreate_run in Hpost.
    destruct (csrfAllows P r); [|injection Hpost as _ <-; congruence].
    destruct (schema P (form r)) as [url|] eqn:Hs;
      [|injection Hpost as _ <-; congruence].
    destruct (VariantA.createKey P fuel url w) as [[k w1]|] eqn:Hck;
      [|discriminate].
    injection Hpost as _ <-.
    destruct (createKey_result P url fuel w k w1 Hck) as (n & _ & _ & _ & _ & ->).
    cbn [kv] in Hkey. apply schema_Some in Hs. destruct Hs as [_ Hurl].
    destruct (decide (candidate P (drawn w + n) = key)) as [<-|Hne].
    + rewrite lookup_insert_eq in Hkey. injection Hkey as <-.
      intros ->. congruence.
    + rewrite lookup_insert_ne in Hkey by assumption. congruence.
Qed.

End ReachableStores.

(** ** The keys of the key generator *)

Lemma createKeyOps_shape (P : Platform) (url : string) (d n : nat) :
  Forall (fun o => sixHexDigits (opKey o)) (createKeyOps P url d n).
Proof.
  unfold createKeyOps. apply Forall_app. split.
  - apply Forall_forall. intros o Ho.
    apply list_elem_of_In, in_map_iff in Ho. destruct Ho as (j & <- & _).
    apply candidate_shape.
  - apply Forall_cons. split; [apply candidate_shape|apply Forall_nil_2].
Qed.

(** C5. Every candidate key of [createKey] is the first six characters of
    the UUID it draws with [crypto.randomUUID()], the string form of a
    random 128-bit value: these are the six leading hexadecimal digits of
    that value, so a key has length six, all its characters are in
    [0-9a-f], and it matches the pattern [[0-9a-z]{6}] of the redirect
    route.  This holds of the key a call returns, of every key the call
    looks up in the store (the candidates that collided included) and of
    the key it writes; and a call whose first candidate is free does
    return that candidate. *)
Theorem createKey_keys_are_six_hex_digits (P : Platform) (url : string)
    (w : World) :
  (exists (uuid : string) (w1 : World),
     randomUUID (entropy P) w = Some (uuid, w1) /\
     substring 0 6 uuid = hexRange (entropy P (drawn w) mod 2 ^ 128) 0 6 /\
     sixHexDigits (substring 0 6 uuid) /\
     (forall (fuel : nat) (k : string) (w' : World),
        VariantA.createKey P fuel url w = Some (k, w') ->
        k = substring 0 6 uuid) /\
     (forall fuel : nat,
        js_not (kv w !! substring 0 6 uuid) = true ->
        exists w' : World,
          VariantA.createKey P (S fuel) url w
            = Some (substring 0 6 uuid, w'))) /\
  (forall (fuel : nat) (k : string) (w' : World),
     VariantA.createKey P fuel url w = Some (k, w') ->
     sixHexDigits k /\
     exists (new : list KvOp) (written : string),
       ops w' = ops w ++ new /\
       Forall (fun o => sixHexDigits (opKey o)) new /\
       kv w' = <[written := url]> (kv w) /\
       sixHexDigits written).
Proof.
  split.
  - exists (uuidString (entropy P (drawn w))),
           (mkWorld (kv w) (S (drawn w)) (ops w)).
    split; [reflexivity|].
    split; [apply uuid_key_shape|]. split; [apply uuid_key_shape|]. split.
    + intros fuel k w' Hrun.
      destruct (createKey_result P url fuel w k w' Hrun)
        as (n & _ & _ & _ & -> & _). reflexivity.
    + intros fuel Hfree.
      destruct (createKey_first_free P fuel url w Hfree) as (w' & Hrun & _).
      exists w'. exact Hrun.
  - intros fuel k w' Hrun.
    destruct (createKey_result P url fuel w k w' Hrun)
      as (n & _ & _ & _ & -> & ->).
    split; [apply candidate_shape|].
    exists (createKeyOps P url (drawn w) n), (candidate P (drawn w + n)).
    cbn [kv ops]. split; [reflexivity|].
    split; [apply createKeyOps_shape|]. split; [reflexivity|].
    apply candidate_shape.
Qed.

Lemma createKey_keys_are_six_hex_digits_witness :
  sixHexDigits "abcdef" /\
  exists (new : list KvOp) (written : string),
    ops (mkWorld (<[ "123456"%string := target ]> (kv takenWorld)) 2
                 [KvGet "abcdef"; KvGet "123456"; KvPut "123456" target])
      = ops takenWorld ++ new /\
    Forall (fun o => sixHexDigits (opKey o)) new /\
    kv (mkWorld (<[ "123456"%string := target ]> (kv takenWorld)) 2
                [KvGet "abcdef"; KvGet "123456"; KvPut "123456" target])
      = <[written := target]> (kv takenWorld) /\
    sixHexDigits written.
Proof.
  apply (proj2 (createKey_keys_are_six_hex_digits twoDraws target takenWorld)
               2%nat "abcdef"%string).
  vm_compute. reflexivity.
Defined.

(** * Further properties of the two versions *)

(** ** What a request does to the contents of the store *)

Section StoreEffects.

Variable P : Platform.

(** A request to the final version leaves the contents of the store as
    they were, or is a creation that went through the guard and the
    validator and wrote the validated URL under one key, which had no
    value or the empty one. *)
Lemma variantA_app_store (fuel : nat) (r : Request) (w : World)
    (response : Response) (w' : World) :
  VariantA.app P fuel r w = Some (response, w') ->
  kv w' = kv w \/
  exists url n,
    method r = POST /\ path r = "/create"%string /\
    csrfAllows P r = true /\
    form r !! "url"%string = Some url /\ zodUrl P url = true /\
    js_not (kv w !! candidate P (drawn w + n)%nat) = true /\
    kv w' = <[candidate P (drawn w + n)%nat := url]> (kv w).
Proof.
  unfold VariantA.app. intros Hrun.
  destruct (router_cases _ r w response w' Hrun) as [Hsame|(Hm & Hp & Hpost)];
    [left; exact Hsame|].
  rewrite postCreate_run in Hpost.
  destruct (csrfAllows P r) eqn:Hc; [|injection Hpost as _ <-; left; reflexivity].
  destruct (schema P (form r)) as [url|] eqn:Hs;
    [|injection Hpost as _ <-; left; reflexivity].
  destruct (VariantA.createKey P fuel url w) as [[k w1]|] eqn:Hck;
    [|discriminate].
  injection Hpost as _ <-.
  destruct (createKey_result P url fuel w k w1 Hck)
    as (n & _ & _ & Hfree & _ & ->).
  apply schema_Some in Hs. destruct Hs as [Hf Hu].
  right. exists url, n. cbn [kv]. auto 10.
Qed.

(** The same for the earlier version: no guard, the lookup is by the URL,
    and the key written is the one drawn, free or not. *)
Lemma variantB_app_store (r : Request) (w : World) (response : Response)
    (w' : World) :
  VariantB.app P r w = Some (response, w') ->
  kv w' = kv w \/
  exists url,
    method r = POST /\ path r = "/create"%string /\
    form r !! "url"%string = Some url /\ zodUrl P url = true /\
    js_not (kv w !! url) = true /\
    kv w' = <[candidate P (drawn w) := url]> (kv w).
Proof.
  unfold VariantB.app. intros Hrun.
  destruct (router_cases _ r w response w' Hrun) as [Hsame|(Hm & Hp & Hpost)];
    [left; exact Hsame|].
  rewrite variantB_postCreate_run in Hpost.
  destruct (schema P (form r)) as [url|] eqn:Hs;
    [|injection Hpost as _ <-; left; reflexivity].
  cbv zeta in Hpost. apply schema_Some in Hs. destruct Hs as [Hf Hu].
  destruct (js_not (kv w !! url)) eqn:Hmiss; injection Hpost as _ <-;
    [right; exists url; cbn [kv]; auto 10 | left; reflexivity].
Qed.

End StoreEffects.

(** X1. The final version changes the contents of the store only through a
    [POST /create] that passed the CSRF guard and the validator: any request
    after which the store differs is such a request, and the difference is
    one write of the validated [url] field under a key of the route's
    pattern. *)
Theorem variantA_writes_only_validated_creations (P : Platform) (fuel : nat)
    (r : Request) (w : World) (response : Response) (w' : World) :
  VariantA.app P fuel r w = Some (response, w') ->
  kv w' <> kv w ->
  method r = POST /\ path r = "/create"%string /\
  csrfAllows P r = true /\
  exists url key,
    form r !! "url"%string = Some url /\ zodUrl P url = true /\
    matchKey key = true /\ kv w' = <[key := url]> (kv w).
Proof.
  intros Hrun Hdiff.
  destruct (variantA_app_store P fuel r w response w' Hrun)
    as [Hsame|(url & n & Hm & Hp & Hc & Hf & Hu & _ & Hkv)]; [contradiction|].
  repeat split; try assumption.
  exists url, (candidate P (drawn w + n)). auto using candidate_matchKey.
Qed.

Lemma variantA_writes_only_validated_creations_witness :
  method (formPost siteOrigin target) = POST /\
  path (formPost siteOrigin target) = "/create"%string /\
  csrfAllows twoDraws (formPost siteOrigin target) = true /\
  exists url key,
    form (formPost siteOrigin target) !! "url"%string = Some url /\
    zodUrl twoDraws url = true /\ matchKey key = true /\
    kv (mkWorld (<[ "abcdef"%string := target ]> (kv emptyWorld)) 1
                [KvGet "abcdef"; KvPut "abcdef" target])
      = <[key := url]> (kv emptyWorld).
Proof.
  apply (variantA_writes_only_validated_creations twoDraws 1
           (formPost siteOrigin target) emptyWorld
           (render (CreatedPage "https://sho.rt/abcdef"))
           (mkWorld (<[ "abcdef"%string := target ]> (kv emptyWorld)) 1
                    [KvGet "abcdef"; KvPut "abcdef" target])).
  - vm_compute. reflexivity.
  - cbn [kv emptyWorld]. intros H.
    apply (f_equal (fun m : gmap string string => m !! "abcdef"%string)) in H.
    rewrite lookup_insert_eq, lookup_empty in H. discriminate.
Defined.

(** X2. What a request can put into the store.  After any request to
    either version, every mapping of the store was there before the
    request, or maps a key of the route's pattern to a URL that passed the
    validator. *)
Theorem stored_links_are_validated (P : Platform) (fuel : nat) (r : Request)
    (w : World) (key v : string) :
  (forall (response : Response) (w' : World),
     VariantA.app P fuel r w = Some (response, w') ->
     kv w' !! key = Some v ->
     kv w !! key = Some v \/ (matchKey key = true /\ zodUrl P v = true)) /\
  (forall (response : Response) (w' : World),
     VariantB.app P r w = Some (response, w') ->
     kv w' !! key = Some v ->
     kv w !! key = Some v \/ (matchKey key = true /\ zodUrl P v = true)).
Proof.
  split; intros response w' Hrun Hkey.
  - destruct (variantA_app_store P fuel r w response w' Hrun)
      as [Hsame|(url & n & _ & _ & _ & _ & Hu & _ & Hkv)];
      [left; congruence|].
    rewrite Hkv in Hkey.
    destruct (decide (candidate P (drawn w + n) = key)) as [<-|Hne].
    + rewrite lookup_insert_eq in Hkey. injection Hkey as <-.
      right. auto using candidate_matchKey.
    + rewrite lookup_insert_ne in Hkey by assumption. left. exact Hkey.
  - destruct (variantB_app_store P r w response w' Hrun)
      as [Hsame|(url & _ & _ & _ & Hu & _ & Hkv)];
      [left; congruence|].
    rewrite Hkv in Hkey.
    destruct (decide (candidate P (drawn w) = key)) as [<-|Hne].
    + rewrite lookup_insert_eq in Hkey. injection Hkey as <-.
      right. auto using candidate_matchKey.
    + rewrite lookup_insert_ne in Hkey by assumption. left. exact Hkey.
Qed.

Lemma stored_links_are_validated_witness :
  kv takenWorld !! "123456"%string = Some target \/
  (matchKey "123456" = true /\ zodUrl twoDraws target = true).
Proof.
  apply (proj1 (stored_links_are_validated twoDraws 2
                  (formPost siteOrigin target) takenWorld "123456" target)
               (render (CreatedPage "https://sho.rt/abcdef"))
               (mkWorld (<[ "123456"%string := target ]> (kv takenWorld)) 2
                        [KvGet "abcdef"; KvGet "123456"; KvPut "123456" target])).
  - vm_compute. reflexivity.
  - reflexivity.
Defined.

(** X3. Links are permanent.  No request to either version removes a key
    from the store, and no request to the final version changes the target
    of a link whose target is not the empty string. *)
Theorem links_are_never_deleted (P : Platform) (fuel : nat) (r : Request)
    (w : World) (key v : string) :
  kv w !! key = Some v ->
  (forall (response : Response) (w' : World),
     VariantA.app P fuel r w = Some (response, w') ->
     is_Some (kv w' !! key) /\ (v <> EmptyString -> kv w' !! key = Some v)) /\
  (forall (response : Response) (w' : World),
     VariantB.app P r w = Some (response, w') -> is_Some (kv w' !! key)).
Proof.
  intros Hkey. split; intros response w' Hrun.
  - split; [|intros Hv; eapply app_frame; eassumption].
    destruct (variantA_app_store P fuel r w response w' Hrun)
      as [->|(url & n & _ & _ & _ & _ & _ & _ & ->)]; [eauto|].
    destruct (decide (candidate P (drawn w + n) = key)) as [<-|Hne].
    + rewrite lookup_insert_eq. eauto.
    + rewrite lookup_insert_ne by assumption. eauto.
  - destruct (variantB_app_store P r w response w' Hrun)
      as [->|(url & _ & _ & _ & _ & _ & ->)]; [eauto|].
    destruct (decide (candidate P (drawn w) = key)) as [<-|Hne].
    + rewrite lookup_insert_eq. eauto.
    + rewrite lookup_insert_ne by assumption. eauto.
Qed.

Lemma links_are_never_deleted_witness :
  kv (mkWorld (<[ "123456"%string := target ]> (kv takenWorld)) 2
              [KvGet "abcdef"; KvGet "123456"; KvPut "123456" target])
    !! "abcdef"%string = Some oldTarget.
Proof.
  apply (proj1 (links_are_never_deleted twoDraws 2 (formPost siteOrigin target)
                  takenWorld "abcdef" oldTarget eq_refl)
               (render (CreatedPage "https://sho.rt/abcdef"))).
  - vm_compute. reflexivity.
  - discriminate.
Defined.

(** ** Routing and reading *)

(** X4. Requests that no route matches never reach the store.  A [GET]
    whose path segment is not six characters of [0-9a-z] is answered with
    the creation form (empty segment) or the default not-found response,
    and a [HEAD], served through the [GET] routes, with the same response
    without its body; a [POST] to a path other than [/create], and a
    request with a method other than [GET], [HEAD] and [POST], get the
    not-found response.  In each case the world is the one before the
    request: no lookup is made with the segment as a key. *)
Theorem unmatched_requests_leave_the_world (P : Platform) (fuel : nat)
    (r : Request) (w : World) :
  (forall seg : string,
     method r = GET -> path r = ("/" +:+ seg)%string -> matchKey seg = false ->
     let response :=
       match seg with EmptyString => render TopPage | _ => NotFound end in
     VariantA.app P fuel r w = Some (response, w) /\
     VariantB.app P r w = Some (response, w)) /\
  (forall seg : string,
     method r = HEAD -> path r = ("/" +:+ seg)%string -> matchKey seg = false ->
     let response :=
       match seg with EmptyString => render TopPage | _ => NotFound end in
     VariantA.app P fuel r w = Some (NoBody response, w) /\
     VariantB.app P r w = Some (NoBody response, w)) /\
  (method r = POST -> path r <> "/create"%string ->
     VariantA.app P fuel r w = Some (NotFound, w) /\
     VariantB.app P r w = Some (NotFound, w)) /\
  (method r <> GET -> method r <> HEAD -> method r <> POST ->
     VariantA.app P fuel r w = Some (NotFound, w) /\
     VariantB.app P r w = Some (NotFound, w)).
Proof.
  unfold VariantA.app, VariantB.app. rewrite !router_run.
  split; [|split; [|split]].
  - intros seg Hm Hp Hk. change (path r = String "/" seg) in Hp.
    rewrite Hm, !routes_run, Hp. unfold keyParam. rewrite Hk.
    destruct seg as [|c seg]; split; reflexivity.
  - intros seg Hm Hp Hk. change (path r = String "/" seg) in Hp.
    rewrite Hm, !routes_run, Hp. unfold keyParam. rewrite Hk.
    destruct seg as [|c seg]; split; reflexivity.
  - intros Hm Hp. rewrite Hm, !routes_run.
    destruct (String.eqb (path r) "/create") eqn:E;
      [apply String.eqb_eq in E; contradiction|]. split; reflexivity.
  - intros Hg Hh Hp. destruct (method r); try contradiction;
      rewrite !routes_run; split; reflexivity.
Qed.

Lemma unmatched_requests_leave_the_world_witness :
  VariantA.app twoDraws 1 (getPath "/ABCDEF") takenWorld
    = Some (NotFound, takenWorld) /\
  VariantA.app twoDraws 1 (getPath "/abcde") takenWorld
    = Some (NotFound, takenWorld) /\
  VariantA.app twoDraws 1 (getPath "/") takenWorld
    = Some (render TopPage, takenWorld) /\
  VariantA.app twoDraws 1
      (mkRequest HEAD "/abcde" "https://sho.rt/abcde" ∅ ∅) takenWorld
    = Some (NoBody NotFound, takenWorld) /\
  VariantA.app twoDraws 1
      (mkRequest DELETE "/abcdef" "https://sho.rt/abcdef" ∅ ∅) takenWorld
    = Some (NotFound, takenWorld).
Proof.
  split; [|split; [|split; [|split]]].
  - apply (proj1 (unmatched_requests_leave_the_world twoDraws 1
                    (getPath "/ABCDEF") takenWorld) "ABCDEF"%string);
      reflexivity.
  - apply (proj1 (unmatched_requests_leave_the_world twoDraws 1
                    (getPath "/abcde") takenWorld) "abcde"%string);
      reflexivity.
  - apply (proj1 (unmatched_requests_leave_the_world twoDraws 1
                    (getPath "/") takenWorld) EmptyString);
      reflexivity.
  - apply (proj1 (proj2 (unmatched_requests_leave_the_world twoDraws 1
                    (mkRequest HEAD "/abcde" "https://sho.rt/abcde" ∅ ∅)
                    takenWorld)) "abcde"%string);
      reflexivity.
  - apply (proj2 (proj2 (proj2 (unmatched_requests_leave_the_world twoDraws 1
                    (mkRequest DELETE "/abcdef" "https://sho.rt/abcdef" ∅ ∅)
                    takenWorld)))); discriminate.
Defined.

(** X5. [GET /<key>] is idempotent: the request repeated on the world it
    left gets the same response, and the contents of the store are still
    those before the first request. *)
Theorem get_key_is_idempotent (P : Platform) (fuel : nat) (r : Request)
    (key : string) (w : World) (response : Response) (w1 : World) :
  matchKey key = true ->
  method r = GET ->
  path r = ("/" +:+ key)%string ->
  VariantA.app P fuel r w = Some (response, w1) ->
  exists w2 : World,
    VariantA.app P fuel r w1 = Some (response, w2) /\ kv w2 = kv w.
Proof.
  intros Hk Hm Hp. unfold VariantA.app.
  rewrite !(router_get_key _ r key Hm Hp Hk), !getKey_run.
  intros [= <- <-]. cbn [kv]. eexists. split; reflexivity.
Qed.

Lemma get_key_is_idempotent_witness :
  exists w2 : World,
    VariantA.app twoDraws 1 (getPath "/abcdef")
      (mkWorld (kv takenWorld) 0 [KvGet "abcdef"])
      = Some (Redirect oldTarget 302, w2) /\
    kv w2 = kv takenWorld.
Proof.
  apply (get_key_is_idempotent twoDraws 1 (getPath "/abcdef") "abcdef"
           takenWorld); reflexivity.
Defined.

(** ** Creating and then resolving *)

(** X6. Round trip without a collision.  When the key of the next draw has
    no value in the store (or the empty one), a valid URL posted to
    [/create] through the guard is answered with the page for that key, and
    [GET /<key>] on the world left redirects (302) to the URL posted. *)
Theorem create_then_get_round_trip (P : Platform) (fuel : nat) (r : Request)
    (url : string) (w : World) :
  method r = POST -> path r = "/create"%string ->
  csrfAllows P r = true ->
  schema P (form r) = Some url ->
  js_not (kv w !! candidate P (drawn w)) = true ->
  let key := candidate P (drawn w) in
  exists w' : World,
    VariantA.app P (S fuel) r w
      = Some (render (CreatedPage (resolveUrl P ("/" +:+ key) (reqUrl r))), w') /\
    forall (g : Request) (fuel' : nat),
      method g = GET -> path g = ("/" +:+ key)%string ->
      exists w'' : World,
        VariantA.app P fuel' g w' = Some (Redirect url 302, w'').
Proof.
  intros Hm Hp Hc Hs Hfree. cbv zeta. unfold VariantA.app.
  rewrite router_post_create by assumption.
  rewrite postCreate_run, Hc, Hs, createKey_step. cbv zeta.
  rewrite Hfree. eexists. split; [reflexivity|].
  intros g fuel' Hgm Hgp.
  rewrite (router_get_key _ g _ Hgm Hgp (candidate_matchKey P (drawn w))).
  rewrite getKey_run. cbn [kv]. rewrite lookup_insert_eq. eauto.
Qed.

Lemma create_then_get_round_trip_witness :
  exists w' : World,
    VariantA.app twoDraws 1 (formPost siteOrigin target) emptyWorld
      = Some (render (CreatedPage "https://sho.rt/abcdef"), w') /\
    forall (g : Request) (fuel' : nat),
      method g = GET -> path g = "/abcdef"%string ->
      exists w'' : World,
        VariantA.app twoDraws fuel' g w' = Some (Redirect target 302, w'').
Proof.
  apply (create_then_get_round_trip twoDraws 0 (formPost siteOrigin target)
           target emptyWorld); reflexivity.
Defined.

(** X7. The key on the creation page always has a link.  After a
    [POST /create] answered with the creation page, the page shows the key
    of the first draw of the request, and the store has a value under it:
    the URL posted when that key was free, and otherwise the non-empty
    target the key had before the request. *)
Theorem created_page_key_is_stored (P : Platform) (fuel : nat) (r : Request)
    (w : World) (shortenUrl : string) (w' : World) :
  method r = POST -> path r = "/create"%string ->
  VariantA.app P fuel r w = Some (render (CreatedPage shortenUrl), w') ->
  let key := candidate P (drawn w) in
  shortenUrl = resolveUrl P ("/" +:+ key) (reqUrl r) /\
  exists url,
    form r !! "url"%string = Some url /\
    ((js_not (kv w !! key) = true /\ kv w' !! key = Some url) \/
     (exists old, old <> EmptyString /\ kv w !! key = Some old /\
                  kv w' !! key = Some old)).
Proof.
  intros Hm Hp. unfold VariantA.app.
  rewrite router_post_create by assumption. rewrite postCreate_run.
  destruct (csrfAllows P r); [|discriminate].
  destruct (schema P (form r)) as [url|] eqn:Hs; [|discriminate].
  destruct (VariantA.createKey P fuel url w) as [[k w1]|] eqn:Hck;
    [|discriminate].
  unfold render. intros [= <- <-]. cbv zeta.
  destruct (createKey_result P url fuel w k w1 Hck)
    as (n & _ & Hocc & Hfree & -> & Hw1).
  split; [reflexivity|]. apply schema_Some in Hs. destruct Hs as [Hf _].
  exists url. split; [exact Hf|].
  destruct n as [|n].
  - rewrite Nat.add_0_r in Hfree, Hw1. left. split; [exact Hfree|].
    rewrite Hw1. cbn [kv]. apply lookup_insert_eq.
  - right. pose proof (Hocc 0%nat ltac:(lia)) as H0.
    rewrite Nat.add_0_r in H0. apply js_not_false_iff in H0.
    destruct H0 as (old & Hold & Hne). exists old.
    split; [exact Hne|]. split; [exact Hold|].
    eapply createKey_frame; eassumption.
Qed.

Lemma created_page_key_is_stored_witness :
  "https://sho.rt/abcdef"%string
    = resolveUrl twoDraws ("/" +:+ candidate twoDraws 0)
                 (reqUrl (formPost siteOrigin target)) /\
  exists url,
    form (formPost siteOrigin target) !! "url"%string = Some url /\
    ((js_not (kv takenWorld !! candidate twoDraws 0) = true /\
      kv (mkWorld (<[ "123456"%string := target ]> (kv takenWorld)) 2
                  [KvGet "abcdef"; KvGet "123456"; KvPut "123456" target])
        !! candidate twoDraws 0 = Some url) \/
     (exists old, old <> EmptyString /\
        kv takenWorld !! candidate twoDraws 0 = Some old /\
        kv (mkWorld (<[ "123456"%string := target ]> (kv takenWorld)) 2
                    [KvGet "abcdef"; KvGet "123456"; KvPut "123456" target])
          !! candidate twoDraws 0 = Some old)).
Proof.
  apply (created_page_key_is_stored twoDraws 2 (formPost siteOrigin target)
           takenWorld); [reflexivity|reflexivity|].
  vm_compute. reflexivity.
Defined.

(** ** The effects of one run of [createKey] *)

(** X8. A run of [createKey] that returns gives back the key of its first
    draw, has drawn [n + 1] UUIDs for some [n], has issued one [get] per
    draw and then a single [put], and has changed the store at exactly one
    key, the key of its last draw, which now maps to the URL. *)
Theorem createKey_effects (P : Platform) (url : string) (fuel : nat)
    (w : World) (k : string) (w' : World) :
  VariantA.createKey P fuel url w = Some (k, w') ->
  k = candidate P (drawn w) /\
  exists (n : nat) (gets : list KvOp),
    let written := candidate P (drawn w + n) in
    drawn w' = (drawn w + S n)%nat /\
    kv w' !! written = Some url /\
    (forall other : string, other <> written -> kv w' !! other = kv w !! other) /\
    ops w' = ops w ++ gets ++ [KvPut written url] /\
    length gets = S n /\
    Forall (fun o => exists key, o = KvGet key) gets.
Proof.
  intros Hrun.
  destruct (createKey_result P url fuel w k w' Hrun)
    as (n & _ & _ & _ & -> & ->).
  split; [reflexivity|].
  exists n, (map (fun j => KvGet (candidate P (drawn w + j))) (seq 0 (S n))).
  cbv zeta. cbn [kv drawn ops].
  split; [reflexivity|]. split; [apply lookup_insert_eq|].
  split; [intros other Hne; apply lookup_insert_ne; congruence|].
  split; [reflexivity|].
  split; [rewrite length_map, length_seq; reflexivity|].
  apply Forall_forall. intros o Ho.
  apply list_elem_of_In, in_map_iff in Ho.
  destruct Ho as (j & <- & _). eauto.
Qed.

Lemma createKey_effects_witness :
  "abcdef"%string = candidate twoDraws (drawn takenWorld) /\
  exists (n : nat) (gets : list KvOp),
    let written := candidate twoDraws (drawn takenWorld + n) in
    let w' := mkWorld (<[ "123456"%string := target ]> (kv takenWorld)) 2
                      [KvGet "abcdef"; KvGet "123456"; KvPut "123456" target] in
    drawn w' = (drawn takenWorld + S n)%nat /\
    kv w' !! written = Some target /\
    (forall other : string,
       other <> written -> kv w' !! other = kv takenWorld !! other) /\
    ops w' = ops takenWorld ++ gets ++ [KvPut written target] /\
    length gets = S n /\
    Forall (fun o => exists key, o = KvGet key) gets.
Proof.
  apply (createKey_effects twoDraws target 2 takenWorld "abcdef").
  vm_compute. reflexivity.
Defined.

(** ** The function of the tutorial and the function of [index.tsx] *)

Section TutorialAndCode.

Variable P : Platform.
Variable url : string.

Lemma tutorial_createKey_step (fuel : nat) (w : World) :
  Tutorial.createKey P (S fuel) url w =
    let key := candidate P (drawn w) in
    if js_not (kv w !! key) then
      Some (key, mkWorld (<[key := url]> (kv w)) (S (drawn w))
                         ((ops w ++ [KvGet key]) ++ [KvPut key url]))
    else
      Tutorial.createKey P fuel url
        (mkWorld (kv w) (S (drawn w)) (ops w ++ [KvGet key])).
Proof.
  cbn [Tutorial.createKey].
  unfold bind, randomUUID, kv_get, kv_put, ret, candidate. cbn [kv drawn ops].
  destruct (js_not _); reflexivity.
Qed.

(** The two functions run alike: they return together, leave the same
    world, and differ at most in the key returned. *)
Lemma createKey_tutorial_related (fuel : nat) :
  forall w : World,
    match VariantA.createKey P fuel url w, Tutorial.createKey P fuel url w with
    | Some (k, w1), Some (k', w2) =>
        w1 = w2 /\ kv w1 !! k' = Some url /\ js_not (kv w !! k') = true /\
        (js_not (kv w !! candidate P (drawn w)) = true -> k' = k)
    | None, None => True
    | _, _ => False
    end.
Proof.
  induction fuel as [|fuel IH]; intros w; [exact I|].
  rewrite createKey_step, tutorial_createKey_step. cbv zeta.
  destruct (js_not (kv w !! candidate P (drawn w))) eqn:E.
  - cbn [kv]. rewrite lookup_insert_eq. auto.
  - specialize (IH (mkWorld (kv w) (S (drawn w))
                            (ops w ++ [KvGet (candidate P (drawn w))]))).
    destruct (VariantA.createKey P fuel url _) as [[k w1]|];
      destruct (Tutorial.createKey P fuel url _) as [[k' w2]|];
      try exact IH.
    cbn [kv drawn] in IH. destruct IH as (Hw & Hk' & Hfree & _).
    repeat split; try assumption. discriminate.
Qed.

End TutorialAndCode.

(** X9. The [createKey] of the tutorial and the [createKey] of [index.tsx]
    return on the same runs and leave the same world.  The tutorial's
    function returns the key it wrote, which resolves to the URL; the two
    return the same key when the first draw is free, and different keys
    after a collision at the first draw. *)
Theorem tutorial_createKey_same_world (P : Platform) (url : string)
    (fuel : nat) (w : World) :
  (forall (k : string) (w' : World),
     VariantA.createKey P fuel url w = Some (k, w') ->
     exists k',
       Tutorial.createKey P fuel url w = Some (k', w') /\
       kv w' !! k' = Some url /\
       (js_not (kv w !! candidate P (drawn w)) = true -> k' = k) /\
       (js_not (kv w !! candidate P (drawn w)) = false -> k' <> k)) /\
  (VariantA.createKey P fuel url w = None <->
   Tutorial.createKey P fuel url w = None).
Proof.
  pose proof (createKey_tutorial_related P url fuel w) as Hrel.
  split.
  - intros k w' Hrun. rewrite Hrun in Hrel.
    destruct (Tutorial.createKey P fuel url w) as [[k' w2]|]; [|contradiction].
    destruct Hrel as (<- & Hk' & Hfree & Hsame).
    exists k'. repeat split; try assumption.
    intros Hocc ->.
    destruct (createKey_result P url fuel w k w' Hrun)
      as (_ & _ & _ & _ & -> & _).
    congruence.
  - destruct (VariantA.createKey P fuel url w) as [[k w1]|];
      destruct (Tutorial.createKey P fuel url w) as [[k' w2]|];
      try contradiction; split; intros H; try discriminate; reflexivity.
Qed.

Lemma tutorial_createKey_same_world_witness :
  exists k',
    Tutorial.createKey twoDraws 2 target takenWorld
      = Some (k', mkWorld (<[ "123456"%string := target ]> (kv takenWorld)) 2
                          [KvGet "abcdef"; KvGet "123456"; KvPut "123456" target]) /\
    kv (mkWorld (<[ "123456"%string := target ]> (kv takenWorld)) 2
                [KvGet "abcdef"; KvGet "123456"; KvPut "123456" target])
      !! k' = Some target /\
    (js_not (kv takenWorld !! candidate twoDraws (drawn takenWorld)) = true ->
     k' = "abcdef"%string) /\
    (js_not (kv takenWorld !! candidate twoDraws (drawn takenWorld)) = false ->
     k' <> "abcdef"%string).
Proof.
  apply (proj1 (tutorial_createKey_same_world twoDraws target 2 takenWorld)
               "abcdef"%string).
  vm_compute. reflexivity.
Defined.

(** ** The same URL posted twice to the final version *)

(** X10. The final version does not deduplicate.  A valid URL posted twice
    through the guard, with the keys of the two draws free and different,
    is stored twice: the two pages show different keys and the store ends
    with both keys mapped to the URL. *)
Theorem variantA_same_url_twice_two_links (P : Platform) (fuel : nat)
    (r : Request) (url : string) (w : World) :
  method r = POST -> path r = "/create"%string ->
  csrfAllows P r = true ->
  schema P (form r) = Some url ->
  js_not (kv w !! candidate P (drawn w)) = true ->
  js_not (kv w !! candidate P (S (drawn w))) = true ->
  candidate P (drawn w) <> candidate P (S (drawn w)) ->
  exists w1 w2 : World,
    VariantA.app P (S fuel) r w
      = Some (render (CreatedPage
                        (resolveUrl P ("/" +:+ candidate P (drawn w)) (reqUrl r))),
              w1) /\
    VariantA.app P (S fuel) r w1
      = Some (render (CreatedPage
                        (resolveUrl P ("/" +:+ candidate P (S (drawn w)))
                                    (reqUrl r))),
              w2) /\
    kv w2 !! candidate P (drawn w) = Some url /\
    kv w2 !! candidate P (S (drawn w)) = Some url.
Proof.
  intros Hm Hp Hc Hs Hfree1 Hfree2 Hne. unfold VariantA.app.
  rewrite !router_post_create by assumption.
  do 2 eexists. split; [|split].
  - rewrite postCreate_run, Hc, Hs, createKey_step. cbv zeta.
    rewrite Hfree1. reflexivity.
  - rewrite postCreate_run, Hc, Hs, createKey_step. cbv zeta. cbn [kv drawn].
    rewrite lookup_insert_ne by assumption. rewrite Hfree2. reflexivity.
  - cbn [kv]. split; [|apply lookup_insert_eq].
    rewrite lookup_insert_ne by congruence. apply lookup_insert_eq.
Qed.

Lemma variantA_same_url_twice_two_links_witness :
  exists w1 w2 : World,
    VariantA.app twoDraws 1 (formPost siteOrigin target) emptyWorld
      = Some (render (CreatedPage "https://sho.rt/abcdef"), w1) /\
    VariantA.app twoDraws 1 (formPost siteOrigin target) w1
      = Some (render (CreatedPage "https://sho.rt/123456"), w2) /\
    kv w2 !! "abcdef"%string = Some target /\
    kv w2 !! "123456"%string = Some target.
Proof.
  apply (variantA_same_url_twice_two_links twoDraws 0
           (formPost siteOrigin target) target emptyWorld);
    try reflexivity.
  vm_compute. discriminate.
Defined.

(** ** The earlier version: what its [POST /create] does *)

(** X11. The earlier version has no collision check.  A valid URL whose
    lookup misses is written under the key drawn without a [get] of that
    key: a link already stored under it is replaced by the new one. *)
Theorem variantB_overwrites_taken_key (P : Platform) (r : Request)
    (url : string) (w : World) (old : string) :
  method r = POST -> path r = "/create"%string ->
  schema P (form r) = Some url ->
  js_not (kv w !! url) = true ->
  kv w !! candidate P (drawn w) = Some old ->
  exists (response : Response) (w' : World),
    VariantB.app P r w = Some (response, w') /\
    kv w' !! candidate P (drawn w) = Some url /\
    ops w' = ops w ++ [KvGet url; KvPut (candidate P (drawn w)) url].
Proof.
  intros Hm Hp Hs Hmiss _. unfold VariantB.app.
  rewrite router_post_create by assumption.
  rewrite variantB_postCreate_run, Hs. cbv zeta. rewrite Hmiss.
  do 2 eexists. split; [reflexivity|]. cbn [kv ops].
  split; [apply lookup_insert_eq|reflexivity].
Qed.

Lemma variantB_overwrites_taken_key_witness :
  exists (response : Response) (w' : World),
    VariantB.app twoDraws (formPost siteOrigin target) takenWorld
      = Some (response, w') /\
    kv w' !! candidate twoDraws (drawn takenWorld) = Some target /\
    ops w' = ops takenWorld
             ++ [KvGet target; KvPut (candidate twoDraws (drawn takenWorld)) target].
Proof.
  apply (variantB_overwrites_taken_key twoDraws (formPost siteOrigin target)
           target takenWorld oldTarget); reflexivity.
Defined.

(** X12. The earlier version, when the submitted URL is itself a key of the
    store with a non-empty value: the page shows that stored value in the
    place of a key, nothing is written, and one UUID is drawn and dropped. *)
Theorem variantB_shows_value_stored_under_url (P : Platform) (r : Request)
    (url : string) (w : World) (v : string) :
  method r = POST -> path r = "/create"%string ->
  schema P (form r) = Some url ->
  kv w !! url = Some v -> v <> EmptyString ->
  VariantB.app P r w
    = Some (render (CreatedPage (resolveUrl P ("/" +:+ v) (reqUrl r))),
            mkWorld (kv w) (S (drawn w)) (ops w ++ [KvGet url])).
Proof.
  intros Hm Hp Hs Hv Hne. unfold VariantB.app.
  rewrite router_post_create by assumption.
  rewrite variantB_postCreate_run, Hs. cbv zeta. rewrite Hv.
  destruct v as [|a v]; [contradiction|]. reflexivity.
Qed.

Lemma variantB_shows_value_stored_under_url_witness :
  VariantB.app twoDraws (formPost siteOrigin target)
      (mkWorld {[ target := "abcdef"%string ]} 0 [])
    = Some (render (CreatedPage "https://sho.rt/abcdef"),
            mkWorld {[ target := "abcdef"%string ]} 1 [KvGet target]).
Proof.
  exact (variantB_shows_value_stored_under_url twoDraws
           (formPost siteOrigin target) target
           (mkWorld {[ target := "abcdef"%string ]} 0 []) "abcdef"
           eq_refl eq_refl eq_refl eq_refl ltac:(discriminate)).
Defined.

(** X13. In the earlier version every form posted to [/create] whose [url]
    field is missing or does not parse gets the error page, whatever its
    origin, and leaves the world as it was. *)
Theorem variantB_invalid_url_gets_error_page (P : Platform) (r : Request)
    (w : World) :
  method r = POST -> path r = "/create"%string ->
  (form r !! "url"%string = None \/
   exists u, form r !! "url"%string = Some u /\ zodUrl P u = false) ->
  VariantB.app P r w = Some (render ErrorPage, w).
Proof.
  intros Hm Hp Hbad. unfold VariantB.app.
  rewrite router_post_create by assumption.
  rewrite variantB_postCreate_run.
  assert (Hs : schema P (form r) = None).
  { unfold schema. destruct Hbad as [->|(u & -> & ->)]; reflexivity. }
  rewrite Hs. reflexivity.
Qed.

Lemma variantB_invalid_url_gets_error_page_witness :
  VariantB.app twoDraws (crossSitePost "not-a-url") takenWorld
    = Some (render ErrorPage, takenWorld) /\
  VariantB.app twoDraws
      (mkRequest POST "/create" "https://sho.rt/create" ∅ ∅) takenWorld
    = Some (render ErrorPage, takenWorld).
Proof.
  split.
  - apply (variantB_invalid_url_gets_error_page twoDraws
             (crossSitePost "not-a-url") takenWorld); try reflexivity.
    right. exists "not-a-url"%string. split; reflexivity.
  - apply (variantB_invalid_url_gets_error_page twoDraws
             (mkRequest POST "/create" "https://sho.rt/create" ∅ ∅) takenWorld);
      try reflexivity.
    left. reflexivity.
Defined.

(** ** Stores that only the application has written *)

(** X14. When the validator rejects the empty string, neither version ever
    writes an empty target: if no value of the store is the empty string
    before a request, none is after it.  On such stores [!result] in
    [createKey] is true only for keys without a value. *)
Theorem stored_targets_stay_non_empty (P : Platform) (fuel : nat)
    (r : Request) (w : World) :
  zodUrl P EmptyString = false ->
  valuesNonEmpty w ->
  (forall (response : Response) (w' : World),
     VariantA.app P fuel r w = Some (response, w') -> valuesNonEmpty w') /\
  (forall (response : Response) (w' : World),
     VariantB.app P r w = Some (response, w') -> valuesNonEmpty w') /\
  (forall key : string, js_not (kv w !! key) = true <-> kv w !! key = None).
Proof.
  intros Hzod Hw. split; [|split].
  - intros response w' Hrun. eapply app_valuesNonEmpty; eassumption.
  - intros response w' Hrun key v Hkey.
    destruct (variantB_app_store P r w response w' Hrun)
      as [Hsame|(url & _ & _ & _ & Hu & _ & Hkv)].
    + rewrite Hsame in Hkey. eapply Hw; eassumption.
    + rewrite Hkv in Hkey.
      destruct (decide (candidate P (drawn w) = key)) as [<-|Hne].
      * rewrite lookup_insert_eq in Hkey. injection Hkey as <-.
        intros ->. congruence.
      * rewrite lookup_insert_ne in Hkey by assumption. eapply Hw; eassumption.
  - intros key. rewrite js_not_true_iff. split; [|auto].
    intros [H|H]; [exact H|]. exfalso. eapply Hw; [exact H|reflexivity].
Qed.

Lemma stored_targets_stay_non_empty_witness :
  valuesNonEmpty
    (mkWorld (<[ "123456"%string := target ]> (kv takenWorld)) 2
             [KvGet "abcdef"; KvGet "123456"; KvPut "123456" target]).
Proof.
  apply (proj1 (stored_targets_stay_non_empty twoDraws 2
                  (formPost siteOrigin target) takenWorld eq_refl
                  ltac:(intros key v H; cbn [kv takenWorld] in H;
                        apply lookup_singleton_Some in H;
                        destruct H as [_ <-]; discriminate))
               (render (CreatedPage "https://sho.rt/abcdef"))).
  vm_compute. reflexivity.
Defined.

(** X15. On a store whose keys all have the route's pattern, the lookup by
    URL of the earlier version never finds anything for a URL that is not
    itself of that pattern: every such valid submission is written as a new
    link under the key drawn, and the keys of the store still all have the
    pattern afterwards.  The earlier version never reuses a key on stores
    it has written itself. *)
Theorem variantB_lookup_never_hits (P : Platform) (r : Request)
    (url : string) (w : World) :
  (forall key : string, is_Some (kv w !! key) -> matchKey key = true) ->
  method r = POST -> path r = "/create"%string ->
  schema P (form r) = Some url ->
  matchKey url = false ->
  let key := candidate P (drawn w) in
  let w' := mkWorld (<[key := url]> (kv w)) (S (drawn w))
                    (ops w ++ [KvGet url; KvPut key url]) in
  VariantB.app P r w
    = Some (render (CreatedPage (resolveUrl P ("/" +:+ key) (reqUrl r))), w') /\
  (forall key' : string, is_Some (kv w' !! key') -> matchKey key' = true).
Proof.
  intros Hkeys Hm Hp Hs Hurl key w'.
  assert (Hmiss : kv w !! url = None).
  { destruct (kv w !! url) as [v|] eqn:E; [|reflexivity].
    rewrite (Hkeys url) in Hurl by eauto. discriminate. }
  split.
  - unfold VariantB.app. rewrite router_post_create by assumption.
    rewrite variantB_postCreate_run, Hs. cbv zeta. rewrite Hmiss. reflexivity.
  - intros key' Hsome. subst w'. cbn [kv] in Hsome.
    destruct (decide (key = key')) as [<-|Hne]; [apply candidate_matchKey|].
    rewrite lookup_insert_ne in Hsome by assumption. apply Hkeys. exact Hsome.
Qed.

Lemma variantB_lookup_never_hits_witness :
  VariantB.app twoDraws (formPost siteOrigin target)
      (mkWorld {[ "123456"%string := target ]} 0 [])
    = Some (render (CreatedPage "https://sho.rt/abcdef"),
            mkWorld (<[ "abcdef"%string := target ]>
                       {[ "123456"%string := target ]}) 1
                    [KvGet target; KvPut "abcdef" target]).
Proof.
  exact (proj1 (variantB_lookup_never_hits twoDraws
                  (formPost siteOrigin target) target
                  (mkWorld {[ "123456"%string := target ]} 0 [])
                  ltac:(intros key [v H]; cbn [kv] in H;
                        apply lookup_singleton_Some in H;
                        destruct H as [<- _]; reflexivity)
                  eq_refl eq_refl eq_refl eq_refl)).
Defined.
